(** * flight-booking-automation: the step runner and its orchestrator

    A shallow embedding of [src/utils/runStep.ts], [src/utils/takeStepScreenshot.ts],
    [src/utils/uploadToS3.ts], [takeScreenshot] and the Lambda [handler].

    The TypeScript code is asynchronous but strictly sequential (every
    promise is awaited before the next statement runs), so an [async]
    function is embedded as a state transformer that either returns a value
    or throws; every awaited promise is taken to settle.  The browser, the
    file system, S3 and the clock live in an external state [Ext] that only
    the platform operations can change; the module-level array
    [stepResults] and the lines written with [console.error] live next to
    it in [World].  A unit of work is a computation over [Ext]: the
    closures the handler passes to [runStep] drive the page and never touch
    [stepResults]. *)

From Stdlib Require Import ZArith String Ascii List Lia.
From Stdlib.Strings Require Import Byte.
From stdpp Require Import base strings list gmap pretty.

Set Warnings "-register-all".
Open Scope Z_scope.
Open Scope string_scope.

(** ** JavaScript strings (ASCII fragment) *)

Module JsString.

(** The double quote character, for building messages that contain it. *)
Definition dquote : string := String (ascii_of_nat 34) EmptyString.

(** [\s] of a JavaScript regular expression, restricted to ASCII:
    tab, line feed, vertical tab, form feed, carriage return, space. *)
Definition is_space (c : ascii) : bool :=
  let n := nat_of_ascii c in
  ((9 <=? n)%nat && (n <=? 13)%nat) || (n =? 32)%nat.

(** [s.replace(/\s+/g, "_")]: every maximal run of white space becomes one
    underscore.  [in_run] tells that the previous character was white. *)
Fixpoint replace_spaces_from (in_run : bool) (s : string) : string :=
  match s with
  | EmptyString => EmptyString
  | String c rest =>
      if is_space c
      then (if in_run then replace_spaces_from true rest
            else String "_"%char (replace_spaces_from true rest))
      else String c (replace_spaces_from false rest)
  end.

Definition replace_spaces (s : string) : string := replace_spaces_from false s.

Definition lower_char (c : ascii) : ascii :=
  let n := nat_of_ascii c in
  if ((65 <=? n)%nat && (n <=? 90)%nat)%bool then ascii_of_nat (n + 32) else c.

(** [s.toLowerCase()] on ASCII letters. *)
Fixpoint toLowerCase (s : string) : string :=
  match s with
  | EmptyString => EmptyString
  | String c rest => String (lower_char c) (toLowerCase rest)
  end.

(** [s.replace(/[:.]/g, "-")]. *)
Fixpoint replace_colon_dot (s : string) : string :=
  match s with
  | EmptyString => EmptyString
  | String c rest =>
      String (if (Ascii.eqb c ":"%char || Ascii.eqb c "."%char)%bool
              then "-"%char else c)
             (replace_colon_dot rest)
  end.

(** [s.split("/").pop()]: the text after the last slash (the whole string
    when it has none).  [acc] is the segment read so far. *)
Fixpoint last_segment_from (acc s : string) : string :=
  match s with
  | EmptyString => acc
  | String c rest =>
      if Ascii.eqb c "/"%char then last_segment_from EmptyString rest
      else last_segment_from (acc ++ String c EmptyString) rest
  end.

Definition split_slash_pop (s : string) : string := last_segment_from EmptyString s.

(** Whether a slash occurs in [s]. *)
Fixpoint has_slash (s : string) : bool :=
  match s with
  | EmptyString => false
  | String c rest => Ascii.eqb c "/"%char || has_slash rest
  end.

(** The text after the first slash of [s] (empty when it has none). *)
Fixpoint after_first_slash (s : string) : string :=
  match s with
  | EmptyString => EmptyString
  | String c rest => if Ascii.eqb c "/"%char then rest else after_first_slash rest
  end.

Fixpoint drop_chars (n : nat) (s : string) : string :=
  match n, s with
  | O, _ => s
  | S n', String _ rest => drop_chars n' rest
  | S _, EmptyString => EmptyString
  end.

(** The path of an [https://host/path] URL, without its leading slash. *)
Definition url_path (url : string) : string :=
  after_first_slash (drop_chars 8 url).

(** A value interpolated in a template literal: [undefined] prints as the
    word. *)
Definition interpolate (v : option string) : string :=
  match v with
  | Some s => s
  | None => "undefined"
  end.

(** A number interpolated in a template literal (integers only). *)
Definition of_number (z : Z) : string := pretty z.

End JsString.

(** ** Promises that settle: returned value or thrown error *)

(** What a [throw] carries.  Playwright, [expect], [fs] and the AWS SDK all
    raise [Error] instances, whose [message] is a string. *)
Record Error := mkError { message : string }.

(** [new Error(m)]: an absent message gives the empty one. *)
Definition new_Error (m : option string) : Error :=
  mkError (default EmptyString m).

Inductive Outcome (A : Type) : Type :=
| Returned (a : A)
| Thrown (e : Error).
Arguments Returned {A} a.
Arguments Thrown {A} e.

(** An awaited computation over a state [S]. *)
Definition Eff (S A : Type) : Type := S -> Outcome A * S.

Section EffMonad.
Context {S : Type}.

Definition ret {A} (a : A) : Eff S A := fun s => (Returned a, s).

Definition bind {A B} (c : Eff S A) (k : A -> Eff S B) : Eff S B :=
  fun s =>
    match c s with
    | (Returned a, s') => k a s'
    | (Thrown e, s') => (Thrown e, s')
    end.

Definition throw {A} (e : Error) : Eff S A := fun s => (Thrown e, s).

Definition get : Eff S S := fun s => (Returned s, s).

Definition modify (f : S -> S) : Eff S unit := fun s => (Returned tt, f s).

(** [try { body } catch (e) { handler e }] *)
Definition try_catch {A} (body : Eff S A) (handler : Error -> Eff S A) : Eff S A :=
  fun s =>
    match body s with
    | (Returned a, s') => (Returned a, s')
    | (Thrown e, s') => handler e s'
    end.

(** [try { body } finally { fin }]: [fin] always runs; when it throws, its
    error replaces the outcome of [body]. *)
Definition try_finally {A} (body : Eff S A) (fin : Eff S unit) : Eff S A :=
  fun s =>
    match body s with
    | (r, s') =>
        match fin s' with
        | (Returned _, s'') => (r, s'')
        | (Thrown e, s'') => (Thrown e, s'')
        end
    end.

End EffMonad.

(** Run a computation on a component of a larger state. *)
Definition zoom {S T A} (proj : T -> S) (inj : S -> T -> T) (c : Eff S A) : Eff T A :=
  fun t =>
    match c (proj t) with
    | (r, s') => (r, inj s' t)
    end.

Declare Scope eff_scope.
Delimit Scope eff_scope with eff.
Notation "'do' x <- c ; k" := (bind c (fun x => k))
  (at level 10, x name, c at level 100, k at level 200) : eff_scope.
Open Scope eff_scope.

(** ** The platform: everything the code imports

    [Ext] is the state of the outside world.  The operations are the calls
    the source makes on Playwright, [fs], the AWS SDK and the helper modules
    that are not part of the core. *)

(** [new S3Client({ region })] *)
Record S3Client := mkS3Client { region : option string }.

(** [new PutObjectCommand({ Bucket, Key, Body, ContentType })] *)
Record PutObjectCommand := mkPutObject {
  Bucket : option string;
  Key : string;
  Body : list byte;
  ContentType : string
}.

Class Platform := {
  Ext : Type;
  Browser : Type;
  BrowserContext : Type;
  Page : Type;
  (** [Date.now()]: the wall clock of the outside world, in milliseconds. *)
  Date_now : Ext -> Z;
  (** [new Date(ms).toISOString()] *)
  Date_toISOString : Z -> string;
  (** [process.env] *)
  process_env : gmap string string;
  (** [fs.mkdir(path, { recursive: true })] *)
  fs_mkdir : string -> Eff Ext unit;
  (** [readFile(path)] *)
  readFile : string -> Eff Ext (list byte);
  (** [page.screenshot({ path })] *)
  page_screenshot : Page -> string -> Eff Ext unit;
  (** [client.send(command)] *)
  S3Client_send : S3Client -> PutObjectCommand -> Eff Ext unit;
  (** [ensureDirectoriesExist()] of [./utils] *)
  ensureDirectoriesExist : Eff Ext unit;
  (** [chromium.executablePath()] *)
  chromium_executablePath : Eff Ext string;
  (** [playwright.launch({ args: BROWSER_ARGS, executablePath })] *)
  playwright_launch : string -> Eff Ext Browser;
  (** [browser.newContext({ viewport: VIEWPORT, userAgent: USER_AGENT })] *)
  browser_newContext : Browser -> Eff Ext BrowserContext;
  (** [context.newPage()] *)
  context_newPage : BrowserContext -> Eff Ext Page;
  (** [page.setDefaultNavigationTimeout(TIMEOUT_NAVIGATION)] *)
  page_setDefaultNavigationTimeout : Page -> Eff Ext unit;
  (** [browser.close()] *)
  browser_close : Browser -> Eff Ext unit;
  (** The bodies of the six steps of the handler: Playwright interactions
      and [expect] assertions on the page. *)
  goto_url : Page -> Eff Ext unit;
  wait_for_booking_component : Page -> Eff Ext unit;
  validate_passengers : Page -> Eff Ext unit;
  select_airports : Page -> Eff Ext unit;
  validate_dates : Page -> Eff Ext unit;
  validate_search_button : Page -> Eff Ext unit
}.

(** ** Data model *)

Inductive Status := success | error.

(** [StepResult]: the two optional properties are [None] while unset. *)
Record StepResult := mkStepResult {
  name : string;
  status : Status;
  durationMs : Z;
  screenshotUrl : option string;
  errorMessage : option string
}.

Definition set_status (v : Status) (r : StepResult) : StepResult :=
  mkStepResult (name r) v (durationMs r) (screenshotUrl r) (errorMessage r).
Definition set_durationMs (v : Z) (r : StepResult) : StepResult :=
  mkStepResult (name r) (status r) v (screenshotUrl r) (errorMessage r).
Definition set_screenshotUrl (v : option string) (r : StepResult) : StepResult :=
  mkStepResult (name r) (status r) (durationMs r) v (errorMessage r).
Definition set_errorMessage (v : option string) (r : StepResult) : StepResult :=
  mkStepResult (name r) (status r) (durationMs r) (screenshotUrl r) v.

(** One call of [console.error(label, value)]. *)
Inductive Logged :=
| LogError (e : Error)
| LogStack (e : Error).

Record LogLine := mkLogLine { log_label : string; log_value : Logged }.

(** The state the code runs in: the outside world [E], the lines written
    with [console.error], and the module-level array [stepResults]. *)
Record World (E : Type) := mkWorld {
  ext : E;
  console : list LogLine;
  stepResults : list StepResult
}.
Arguments mkWorld {E} ext console stepResults.
Arguments ext {E} w.
Arguments console {E} w.
Arguments stepResults {E} w.

Definition set_ext {E} (e : E) (w : World E) : World E :=
  mkWorld e (console w) (stepResults w).
Definition set_stepResults {E} (l : list StepResult) (w : World E) : World E :=
  mkWorld (ext w) (console w) l.

(** ** JSON values and [JSON.stringify] *)

Inductive json :=
| JNull
| JBool (b : bool)
| JNumber (z : Z)
| JString (s : string)
| JArray (items : list json)
| JObject (fields : list (string * json)).

Module Json.

Definition hex_digit (n : nat) : ascii :=
  if (n <? 10)%nat then ascii_of_nat (48 + n) else ascii_of_nat (87 + n).

(** One character of a quoted string: the quote, the backslash and the
    control characters are escaped. *)
Definition escape_char (c : ascii) : string :=
  let n := nat_of_ascii c in
  if (n =? 34)%nat then "\" ++ JsString.dquote
  else if (n =? 92)%nat then "\\"
  else if (n =? 8)%nat then "\b"
  else if (n =? 9)%nat then "\t"
  else if (n =? 10)%nat then "\n"
  else if (n =? 12)%nat then "\f"
  else if (n =? 13)%nat then "\r"
  else if (n <? 32)%nat
       then "\u00" ++ String (hex_digit (n / 16)) (String (hex_digit (n mod 16)) EmptyString)
  else String c EmptyString.

Fixpoint escape (s : string) : string :=
  match s with
  | EmptyString => EmptyString
  | String c rest => escape_char c ++ escape rest
  end.

Definition quote (s : string) : string :=
  JsString.dquote ++ escape s ++ JsString.dquote.

Fixpoint stringify (v : json) : string :=
  match v with
  | JNull => "null"
  | JBool b => if b then "true" else "false"
  | JNumber z => JsString.of_number z
  | JString s => quote s
  | JArray items => "[" ++ String.concat "," (map stringify items) ++ "]"
  | JObject fields =>
      "{" ++ String.concat ","
               (map (fun kv => let '(k, v) := kv in quote k ++ ":" ++ stringify v) fields)
          ++ "}"
  end.

(** A property whose value may be [undefined] is left out; [null] stays. *)
Definition optional (k : string) (v : option string) : list (string * json) :=
  match v with
  | Some s => [(k, JString s)]
  | None => []
  end.

Definition nullable (v : option string) : json :=
  match v with
  | Some s => JString s
  | None => JNull
  end.

(** The value of property [k] of an object. *)
Fixpoint assoc (k : string) (fields : list (string * json)) : option json :=
  match fields with
  | [] => None
  | (k', v) :: rest => if String.eqb k k' then Some v else assoc k rest
  end.

Definition property (k : string) (v : json) : option json :=
  match v with
  | JObject fields => assoc k fields
  | _ => None
  end.

(** *** Reading a serialised value back *)

Definition unhex (c : ascii) : option nat :=
  let n := nat_of_ascii c in
  if ((48 <=? n) && (n <=? 57))%nat then Some (n - 48)%nat
  else if ((97 <=? n) && (n <=? 102))%nat then Some (n - 87)%nat
  else None.

(** Where the reader of a quoted string stands: between characters, after a
    backslash, or inside a [\u00XX] escape. *)
Inductive escape_state :=
| Plain
| Backslash
| Unicode0            (* after \u *)
| Unicode00           (* after \u0 *)
| UnicodeHigh         (* after \u00 *)
| UnicodeLow (high : nat).

Definition emit (c : ascii) (r : option (string * string)) : option (string * string) :=
  match r with
  | Some (s, rest) => Some (String c s, rest)
  | None => None
  end.

(** The characters of a quoted string up to its closing quote, and the text
    after it. *)
Fixpoint unescape (st : escape_state) (s : string) : option (string * string) :=
  match s with
  | EmptyString => None
  | String c rest =>
      let n := nat_of_ascii c in
      match st with
      | Plain =>
          if (n =? 34)%nat then Some (EmptyString, rest)
          else if (n =? 92)%nat then unescape Backslash rest
          else emit c (unescape Plain rest)
      | Backslash =>
          if (n =? 34)%nat then emit c (unescape Plain rest)
          else if (n =? 92)%nat then emit c (unescape Plain rest)
          else if (n =? 98)%nat then emit (ascii_of_nat 8) (unescape Plain rest)
          else if (n =? 116)%nat then emit (ascii_of_nat 9) (unescape Plain rest)
          else if (n =? 110)%nat then emit (ascii_of_nat 10) (unescape Plain rest)
          else if (n =? 102)%nat then emit (ascii_of_nat 12) (unescape Plain rest)
          else if (n =? 114)%nat then emit (ascii_of_nat 13) (unescape Plain rest)
          else if (n =? 117)%nat then unescape Unicode0 rest
          else None
      | Unicode0 => if (n =? 48)%nat then unescape Unicode00 rest else None
      | Unicode00 => if (n =? 48)%nat then unescape UnicodeHigh rest else None
      | UnicodeHigh =>
          match unhex c with
          | Some h => unescape (UnicodeLow h) rest
          | None => None
          end
      | UnicodeLow h =>
          match unhex c with
          | Some l => emit (ascii_of_nat (16 * h + l)) (unescape Plain rest)
          | None => None
          end
      end
  end.

Definition is_digit (c : ascii) : bool :=
  let n := nat_of_ascii c in ((48 <=? n) && (n <=? 57))%nat.

Definition digit_value (c : ascii) : N := N.of_nat (nat_of_ascii c - 48).

Fixpoint read_digits (acc : N) (s : string) : N * string :=
  match s with
  | EmptyString => (acc, EmptyString)
  | String c rest =>
      if is_digit c then read_digits (10 * acc + digit_value c) rest else (acc, s)
  end.

(** The text after a value: it does not go on with a digit. *)
Definition ends_number (r : string) : Prop :=
  match r with
  | EmptyString => True
  | String c _ => is_digit c = false
  end.

Definition read_number (s : string) : option (Z * string) :=
  match s with
  | EmptyString => None
  | String c r =>
      if Ascii.eqb c "-"%char
      then (let (n, rest) := read_digits 0 r in Some (- Z.of_N n, rest))
      else if is_digit c
           then (let (n, rest) := read_digits 0 s in Some (Z.of_N n, rest))
           else None
  end.

Fixpoint strip (p s : string) : option string :=
  match p with
  | EmptyString => Some s
  | String a p' =>
      match s with
      | EmptyString => None
      | String b s' => if Ascii.eqb a b then strip p' s' else None
      end
  end.

Fixpoint read_items (read : string -> option (json * string)) (n : nat) (s : string)
    : option (list json * string) :=
  match n with
  | O => None
  | S n' =>
      match read s with
      | Some (v, String c rest) =>
          if Ascii.eqb c ","%char
          then match read_items read n' rest with
               | Some (vs, rest') => Some (v :: vs, rest')
               | None => None
               end
          else if Ascii.eqb c "]"%char then Some ([v], rest) else None
      | _ => None
      end
  end.

Fixpoint read_members (read : string -> option (json * string)) (n : nat) (s : string)
    : option (list (string * json) * string) :=
  match n with
  | O => None
  | S n' =>
      match s with
      | EmptyString => None
      | String q s1 =>
          if Ascii.eqb q (ascii_of_nat 34)
          then match unescape Plain s1 with
               | Some (k, String colon s2) =>
                   if Ascii.eqb colon ":"%char
                   then match read s2 with
                        | Some (v, String c rest) =>
                            if Ascii.eqb c ","%char
                            then match read_members read n' rest with
                                 | Some (fs, rest') => Some ((k, v) :: fs, rest')
                                 | None => None
                                 end
                            else if Ascii.eqb c "}"%char then Some ([(k, v)], rest)
                                 else None
                        | _ => None
                        end
                   else None
               | _ => None
               end
          else None
      end
  end.

Fixpoint parse (fuel : nat) (s : string) : option (json * string) :=
  match fuel with
  | O => None
  | S fuel' =>
      match s with
      | EmptyString => None
      | String c r =>
          if is_digit c || Ascii.eqb c "-"%char
          then match read_number s with
               | Some (z, rest) => Some (JNumber z, rest)
               | None => None
               end
          else if Ascii.eqb c "n"%char
          then match strip "ull" r with
               | Some rest => Some (JNull, rest)
               | None => None
               end
          else if Ascii.eqb c "t"%char
          then match strip "rue" r with
               | Some rest => Some (JBool true, rest)
               | None => None
               end
          else if Ascii.eqb c "f"%char
          then match strip "alse" r with
               | Some rest => Some (JBool false, rest)
               | None => None
               end
          else if Ascii.eqb c (ascii_of_nat 34)
          then match unescape Plain r with
               | Some (str, rest) => Some (JString str, rest)
               | None => None
               end
          else if Ascii.eqb c "["%char
          then match r with
               | EmptyString => None
               | String c' rest =>
                   if Ascii.eqb c' "]"%char then Some (JArray [], rest)
                   else match read_items (parse fuel') fuel' r with
                        | Some (vs, rest') => Some (JArray vs, rest')
                        | None => None
                        end
               end
          else if Ascii.eqb c "{"%char
          then match r with
               | EmptyString => None
               | String c' rest =>
                   if Ascii.eqb c' "}"%char then Some (JObject [], rest)
                   else match read_members (parse fuel') fuel' r with
                        | Some (fs, rest') => Some (JObject fs, rest')
                        | None => None
                        end
               end
          else None
      end
  end.

Fixpoint size (v : json) : nat :=
  match v with
  | JArray items => S (list_sum (map (fun v => S (size v)) items))
  | JObject fields => S (list_sum (map (fun kv => let '(_, v) := kv in S (size v)) fields))
  | _ => 1
  end.

Definition member (kv : string * json) : string :=
  let '(k, v) := kv in quote k ++ ":" ++ stringify v.

End Json.

Section Core.
Context `{P : Platform}.

(** An operation of the platform, run from the module. *)
Definition io {A} (c : Eff Ext A) : Eff (World Ext) A := zoom ext set_ext c.

Definition now : Eff Ext Z := fun e => (Returned (Date_now e), e).

Definition console_error (label : string) (v : Logged) : Eff (World Ext) unit :=
  modify (fun w => mkWorld (ext w) (console w ++ [mkLogLine label v]) (stepResults w)).

(** [stepResults.push(result)] *)
Definition push (r : StepResult) : Eff (World Ext) unit :=
  modify (fun w => set_stepResults (stepResults w ++ [r]) w).

(** *** takeStepScreenshot.ts *)
Definition takeStepScreenshot (page : Page) (stepName : string) : Eff Ext string :=
  let sanitizedStepName := JsString.toLowerCase (JsString.replace_spaces stepName) in
  do t <- now;
  let filename := "step-" ++ sanitizedStepName ++ "-" ++ JsString.of_number t ++ ".png" in
  let localPath := "/tmp/screenshots/" ++ filename in
  do _ <- fs_mkdir "/tmp/screenshots";
  do _ <- page_screenshot page localPath;
  ret localPath.

(** *** uploadToS3.ts *)
Definition s3 : S3Client := mkS3Client (process_env !! "AWS_REGION").

Definition uploadToS3 (localPath filename : string) : Eff Ext string :=
  do fileContent <- readFile localPath;
  let command :=
    mkPutObject (process_env !! "AWS_S3_BUCKET")
                ("screenshots/" ++ filename)
                fileContent
                "image/png" in
  do _ <- S3Client_send s3 command;
  let bucket := process_env !! "AWS_S3_BUCKET" in
  ret ("https://" ++ JsString.interpolate bucket ++ ".s3."
         ++ JsString.interpolate (process_env !! "AWS_REGION")
         ++ ".amazonaws.com/screenshots/" ++ filename).

(** *** runStep.ts *)
Definition screenshot_failure_label (name : string) : string :=
  "❌ Failed to capture/upload screenshot for " ++ JsString.dquote ++ name
    ++ JsString.dquote ++ ":".

Definition runStep (name : string) (fn : Eff Ext unit) (page : Page) : Eff (World Ext) unit :=
  do start <- io now;
  let result := mkStepResult name success 0 None None in
  do result <-
    try_catch
      (do _ <- io fn; ret result)
      (fun err =>
         ret (set_errorMessage (Some (message err)) (set_status error result)));
  do result <-
    try_catch
      (do localPath <- io (takeStepScreenshot page name);
       let filename := JsString.split_slash_pop localPath in
       do url <- io (uploadToS3 localPath filename);
       ret (set_screenshotUrl (Some url) result))
      (fun e =>
         do _ <- console_error (screenshot_failure_label name) (LogError e);
         ret result);
  do finish <- io now;
  let result := set_durationMs (finish - start) result in
  do _ <- push result;
  match status result with
  | error => throw (new_Error (errorMessage result))
  | success => ret tt
  end.

(** *** takeScreenshot.ts *)
Definition takeScreenshot (page : Page) (name : string) : Eff Ext string :=
  do t <- now;
  let timestamp := JsString.replace_colon_dot (Date_toISOString t) in
  let filename := name ++ "-" ++ timestamp ++ ".png" in
  let localPath := "/tmp/screenshots/" ++ filename in
  do _ <- page_screenshot page localPath;
  do url <- uploadToS3 localPath filename;
  ret url.

(** *** The Lambda handler *)

Record APIGatewayProxyResult := mkResponse {
  statusCode : Z;
  headers : list (string * string);
  body : string
}.

(** The [let] variables of the handler, next to the world it runs in. *)
Record Frame := mkFrame {
  var_browser : option Browser;
  var_screenshotUrl : option string;
  var_statusCode : Z;
  var_message : string;
  world : World Ext
}.

Definition set_world (w : World Ext) (f : Frame) : Frame :=
  mkFrame (var_browser f) (var_screenshotUrl f) (var_statusCode f) (var_message f) w.
Definition assign_browser (b : option Browser) : Eff Frame unit :=
  modify (fun f =>
    mkFrame b (var_screenshotUrl f) (var_statusCode f) (var_message f) (world f)).
Definition assign_screenshotUrl (u : option string) : Eff Frame unit :=
  modify (fun f =>
    mkFrame (var_browser f) u (var_statusCode f) (var_message f) (world f)).
Definition assign_statusCode (c : Z) : Eff Frame unit :=
  modify (fun f =>
    mkFrame (var_browser f) (var_screenshotUrl f) c (var_message f) (world f)).
Definition assign_message (m : string) : Eff Frame unit :=
  modify (fun f =>
    mkFrame (var_browser f) (var_screenshotUrl f) (var_statusCode f) m (world f)).

(** Code of the module, and calls of the platform, run from the handler. *)
Definition in_world {A} (c : Eff (World Ext) A) : Eff Frame A := zoom world set_world c.
Definition await {A} (c : Eff Ext A) : Eff Frame A := in_world (io c).

(** The object a [StepResult] serialises to: properties in the order
    [runStep] creates them, unset ones left out. *)
Definition StepResult_toJSON (r : StepResult) : json :=
  JObject ([("name", JString (name r));
            ("status", JString (match status r with
                                | success => "success"
                                | error => "error"
                                end));
            ("durationMs", JNumber (durationMs r))]
           ++ Json.optional "errorMessage" (errorMessage r)
           ++ Json.optional "screenshotUrl" (screenshotUrl r)).

(** The body of the [try] block. *)
Definition handler_try : Eff Frame unit :=
  do _ <- await ensureDirectoriesExist;
  do executablePath <- await chromium_executablePath;
  do browser <- await (playwright_launch executablePath);
  do _ <- assign_browser (Some browser);
  do context <- await (browser_newContext browser);
  do page <- await (context_newPage context);
  do _ <- await (page_setDefaultNavigationTimeout page);
  do _ <- in_world (runStep "Navigate to Aegean" (goto_url page) page);
  do _ <- in_world (runStep "Wait for booking component"
                            (wait_for_booking_component page) page);
  do _ <- in_world (runStep "Validate passengers and travel class selector"
                            (validate_passengers page) page);
  do _ <- in_world (runStep "Select origin and destination airports"
                            (select_airports page) page);
  do _ <- in_world (runStep
    "Validate departure and return date selectors (select tomorrow and day after tomorrow)"
                            (validate_dates page) page);
  do _ <- in_world (runStep "Validate search button is enabled and contains 'search'"
                            (validate_search_button page) page);
  do url <- await (takeScreenshot page "aegean-flight-booking");
  assign_screenshotUrl (Some url).

(** The [catch] block. *)
Definition handler_catch (err : Error) : Eff Frame unit :=
  do _ <- in_world (console_error "Error:" (LogError err));
  do _ <- in_world (console_error "Stack trace:" (LogStack err));
  do _ <- assign_statusCode 500;
  assign_message ("Error: " ++ message err).

(** The [finally] block. *)
Definition handler_finally : Eff Frame unit :=
  do f <- get;
  match var_browser f with
  | Some browser =>
      try_catch (await (browser_close browser))
                (fun closeError =>
                   in_world (console_error "Error closing browser:" (LogError closeError)))
  | None => ret tt
  end.

Definition handler_frame (event : json) : Eff Frame APIGatewayProxyResult :=
  do _ <- in_world (modify (set_stepResults []));
  do _ <- try_finally (try_catch handler_try handler_catch) handler_finally;
  do f <- get;
  do t <- await now;
  ret (mkResponse
         (var_statusCode f)
         [("Content-Type", "application/json")]
         (Json.stringify
            (JObject [("message", JString (var_message f));
                      ("timestamp", JString (Date_toISOString t));
                      ("screenshotUrl", Json.nullable (var_screenshotUrl f));
                      ("event", event);
                      ("steps", JArray (map StepResult_toJSON (stepResults (world f))))]))).

Definition handler (event : json) : Eff (World Ext) APIGatewayProxyResult :=
  fun w =>
    match handler_frame event (mkFrame None None 200 "Success" w) with
    | (r, f) => (r, world f)
    end.

End Core.

(** ** A simulated platform

    An in-memory file system and bucket store with a clock that advances by
    [latency] at every call, and a set of operations that are made to fail.
    It runs the code above on concrete inputs. *)

Module Sim.

Record SimExt := mkSimExt {
  clock : Z;
  latency : Z;
  failing : gset string;
  files : gmap string (list byte);
  objects : gmap (string * string) (list byte)
}.

Definition tick (e : SimExt) : SimExt :=
  mkSimExt (clock e + latency e) (latency e) (failing e) (files e) (objects e).

Definition write_file (path : string) (content : list byte) (e : SimExt) : SimExt :=
  mkSimExt (clock e) (latency e) (failing e) (<[path := content]> (files e)) (objects e).

Definition put_object (bucket key : string) (content : list byte) (e : SimExt) : SimExt :=
  mkSimExt (clock e) (latency e) (failing e) (files e)
           (<[(bucket, key) := content]> (objects e)).

(** A call of operation [op]: time passes, then it raises when it is in
    the failing set and takes [effect] otherwise. *)
Definition call {A} (op : string) (effect : Eff SimExt A) : Eff SimExt A :=
  fun e =>
    let e1 := tick e in
    if bool_decide (op ∈ failing e1)
    then (Thrown (mkError (op ++ " failed")), e1)
    else effect e1.

Definition png : list byte := [x89; x50; x4e; x47].

Definition env : gmap string string :=
  {[ "AWS_REGION" := "us-east-2"; "AWS_S3_BUCKET" := "technical-playwright-result" ]}.

#[export] Instance platform : Platform := {|
  Ext := SimExt;
  Browser := unit;
  BrowserContext := unit;
  Page := unit;
  Date_now := clock;
  Date_toISOString := fun t => "T+" ++ pretty t;
  process_env := env;
  fs_mkdir := fun _ => call "fs.mkdir" (ret tt);
  readFile := fun path =>
    call "readFile"
         (fun e => match files e !! path with
                   | Some content => (Returned content, e)
                   | None => (Thrown (mkError ("ENOENT: no such file or directory, open '"
                                                 ++ path ++ "'")), e)
                   end);
  page_screenshot := fun _ path =>
    call "page.screenshot" (modify (write_file path png));
  S3Client_send := fun _ command =>
    call "s3.send"
         (match Bucket command with
          | Some bucket => modify (put_object bucket (Key command) (Body command))
          | None => throw (mkError "No value provided for input HTTP label: Bucket.")
          end);
  ensureDirectoriesExist := call "ensureDirectoriesExist" (ret tt);
  chromium_executablePath := call "chromium.executablePath" (ret "/tmp/chromium");
  playwright_launch := fun _ => call "playwright.launch" (ret tt);
  browser_newContext := fun _ => call "browser.newContext" (ret tt);
  context_newPage := fun _ => call "context.newPage" (ret tt);
  page_setDefaultNavigationTimeout := fun _ => ret tt;
  browser_close := fun _ => call "browser.close" (ret tt);
  goto_url := fun _ => call "page.goto" (ret tt);
  wait_for_booking_component := fun _ => call "page.waitForSelector" (ret tt);
  validate_passengers := fun _ => call "validate passengers" (ret tt);
  select_airports := fun _ => call "select airports" (ret tt);
  validate_dates := fun _ => call "validate dates" (ret tt);
  validate_search_button := fun _ => call "validate search" (ret tt)
|}.

(** The page of the simulated browser. *)
Definition page0 : @Page platform := tt.

(** A fresh process at clock [t] where every call takes [d] milliseconds
    and the operations of [bad] fail. *)
Definition boot (t d : Z) (bad : list string) : World SimExt :=
  mkWorld (mkSimExt t d (list_to_set bad) ∅ ∅) [] [].

(** The outside world of [boot]. *)
Definition machine (t d : Z) (bad : list string) : SimExt :=
  mkSimExt t d (list_to_set bad) ∅ ∅.

(** A machine that holds one screenshot file. *)
Definition disk (path : string) : SimExt :=
  mkSimExt 1000 5 ∅ {[ path := png ]} ∅.


Definition shot_name : string := "step-a-1.png".
Definition shot_path : string := "/tmp/screenshots/step-a-1.png".
Definition shot_url : string :=
  "https://technical-playwright-result.s3.us-east-2.amazonaws.com/screenshots/step-a-1.png".

(** The record of the second step of the handler when waiting for the
    booking component fails at clock 1000 with calls of 5 ms. *)
Definition failed_wait : StepResult :=
  mkStepResult "Wait for booking component" error 25
    (Some ("https://technical-playwright-result.s3.us-east-2.amazonaws.com/screenshots/"
             ++ "step-wait_for_booking_component-1055.png"))
    (Some "page.waitForSelector failed").

(** A leftover record of an earlier run. *)
Definition stale : StepResult :=
  mkStepResult "Old step" error 7 None (Some "old failure").

End Sim.

(** ** Phases of a step, for stating what [runStep] does *)

Section Phases.
Context `{P : Platform}.

(** The evidence phase: the body of the second [try] of [runStep], as a
    computation of the platform. *)
Definition evidence (page : Page) (name : string) : Eff Ext string :=
  do localPath <- takeStepScreenshot page name;
  uploadToS3 localPath (JsString.split_slash_pop localPath).

(** The steps of a run, one [runStep] after the other, as the handler
    writes them. *)
Fixpoint runSteps (steps : list (string * Eff Ext unit)) (page : Page) : Eff (World Ext) unit :=
  match steps with
  | [] => ret tt
  | (name, fn) :: rest => do _ <- runStep name fn page; runSteps rest page
  end.

(** The six steps of the handler. *)
Definition handler_steps (page : Page) : list (string * Eff Ext unit) :=
  [("Navigate to Aegean", goto_url page);
   ("Wait for booking component", wait_for_booking_component page);
   ("Validate passengers and travel class selector", validate_passengers page);
   ("Select origin and destination airports", select_airports page);
   ("Validate departure and return date selectors (select tomorrow and day after tomorrow)",
    validate_dates page);
   ("Validate search button is enabled and contains 'search'",
    validate_search_button page)].

(** The same platform with other file system, screenshot and S3
    operations: the operations the evidence phase is made of. *)
Definition with_evidence_ops
    (mkdir' : string -> Eff Ext unit) (read' : string -> Eff Ext (list byte))
    (shot' : Page -> string -> Eff Ext unit)
    (send' : S3Client -> PutObjectCommand -> Eff Ext unit) : Platform :=
  {| Ext := Ext; Browser := Browser; BrowserContext := BrowserContext; Page := Page;
     Date_now := Date_now; Date_toISOString := Date_toISOString;
     process_env := process_env;
     fs_mkdir := mkdir'; readFile := read'; page_screenshot := shot';
     S3Client_send := send';
     ensureDirectoriesExist := ensureDirectoriesExist;
     chromium_executablePath := chromium_executablePath;
     playwright_launch := playwright_launch;
     browser_newContext := browser_newContext;
     context_newPage := context_newPage;
     page_setDefaultNavigationTimeout := page_setDefaultNavigationTimeout;
     browser_close := browser_close;
     goto_url := goto_url;
     wait_for_booking_component := wait_for_booking_component;
     validate_passengers := validate_passengers;
     select_airports := select_airports;
     validate_dates := validate_dates;
     validate_search_button := validate_search_button |}.

(** The start of the [try] block, up to the page the steps run on. *)
Definition handler_setup : Eff Frame Page :=
  do _ <- await ensureDirectoriesExist;
  do executablePath <- await chromium_executablePath;
  do browser <- await (playwright_launch executablePath);
  do _ <- assign_browser (Some browser);
  do context <- await (browser_newContext browser);
  do page <- await (context_newPage context);
  do _ <- await (page_setDefaultNavigationTimeout page);
  ret page.

(** The names of the six steps, in the order the handler declares them. *)
Definition handler_step_names : list string :=
  ["Navigate to Aegean";
   "Wait for booking component";
   "Validate passengers and travel class selector";
   "Select origin and destination airports";
   "Validate departure and return date selectors (select tomorrow and day after tomorrow)";
   "Validate search button is enabled and contains 'search'"].

(** The object the handler serialises as the body of its response. *)
Definition response_object (f : Frame) (event : json) : json :=
  JObject [("message", JString (var_message f));
           ("timestamp", JString (Date_toISOString (Date_now (ext (world f)))));
           ("screenshotUrl", Json.nullable (var_screenshotUrl f));
           ("event", event);
           ("steps", JArray (map StepResult_toJSON (stepResults (world f))))].

(** The frame the handler starts its [try] block in. *)
Definition initial_frame (w : World Ext) : Frame :=
  mkFrame None None 200 "Success" (set_stepResults [] w).

End Phases.

(** ** Predicates on characters and the names the code builds *)

Module Chars.


(** A character that [replace(/[:.]/g, "-")] rewrites. *)
Definition is_colon_dot (c : ascii) : bool :=
  (Ascii.eqb c ":"%char || Ascii.eqb c "."%char)%bool.


(** Every character of [s] satisfies [p]. *)
Fixpoint all (p : ascii -> bool) (s : string) : bool :=
  match s with
  | EmptyString => true
  | String c rest => (p c && all p rest)%bool
  end.

End Chars.

Section Names.
Context `{P : Platform}.

(** [stepName.replace(/\s+/g, "_").toLowerCase()] *)
Definition sanitized (stepName : string) : string :=
  JsString.toLowerCase (JsString.replace_spaces stepName).

(** The file name [takeStepScreenshot] builds at clock [t]. *)
Definition step_file_name (stepName : string) (t : Z) : string :=
  "step-" ++ sanitized stepName ++ "-" ++ JsString.of_number t ++ ".png".

(** The local path [takeStepScreenshot] writes to at clock [t]. *)
Definition step_path (stepName : string) (t : Z) : string :=
  "/tmp/screenshots/" ++ step_file_name stepName t.

(** The file name [takeScreenshot] builds at clock [t]. *)
Definition final_file_name (name : string) (t : Z) : string :=
  name ++ "-" ++ JsString.replace_colon_dot (Date_toISOString t) ++ ".png".

(** The URL [uploadToS3] returns for a file name. *)
Definition object_url (filename : string) : string :=
  "https://" ++ JsString.interpolate (process_env !! "AWS_S3_BUCKET") ++ ".s3."
    ++ JsString.interpolate (process_env !! "AWS_REGION")
    ++ ".amazonaws.com/screenshots/" ++ filename.

(** The command [uploadToS3] sends for a file name and a content. *)
Definition put_command (filename : string) (content : list byte) : PutObjectCommand :=
  mkPutObject (process_env !! "AWS_S3_BUCKET") ("screenshots/" ++ filename) content
              "image/png".


(** The frame the [try] and [catch] blocks of the handler leave. *)
Definition after_try (w : World Ext) : Frame :=
  snd (try_catch handler_try handler_catch (initial_frame w)).

(** What closing the browser logs. *)
Definition close_log (closing : Outcome unit) : list LogLine :=
  match closing with
  | Returned _ => []
  | Thrown err => [mkLogLine "Error closing browser:" (LogError err)]
  end.

End Names.

(** Case analysis on the calls of a computation, innermost (earliest)
    call first. *)
Ltac destruct_calls :=
  repeat match goal with
         | |- context [match ?c with (_, _) => _ end] =>
             lazymatch c with
             | context [match _ with (_, _) => _ end] => fail
             | _ => destruct c as [[? | ?] ?]; cbn
             end
         end.

(** ** The step runner *)

Section StepEquation.
Context `{P : Platform}.

Definition recorded_status (work : Outcome unit) : Status :=
  match work with
  | Returned _ => success
  | Thrown _ => error
  end.

Definition recorded_error (work : Outcome unit) : option string :=
  match work with
  | Returned _ => None
  | Thrown e => Some (message e)
  end.

Definition recorded_url (ev : Outcome string) : option string :=
  match ev with
  | Returned url => Some url
  | Thrown _ => None
  end.

Definition evidence_log (name : string) (ev : Outcome string) : list LogLine :=
  match ev with
  | Returned _ => []
  | Thrown e => [mkLogLine (screenshot_failure_label name) (LogError e)]
  end.

Definition step_outcome (work : Outcome unit) : Outcome unit :=
  match work with
  | Returned _ => Returned tt
  | Thrown e => Thrown (mkError (message e))
  end.

(** One equation for [runStep]: the work runs on the outside world, the
    evidence phase runs on what the work left, and the record, the log
    and the outcome are read off the two outcomes. *)
Lemma runStep_run (name : string) (fn : Eff Ext unit) (page : Page) (w : World Ext) :
  runStep name fn page w =
    (step_outcome (fst (fn (ext w))),
     mkWorld (snd (evidence page name (snd (fn (ext w)))))
             (console w ++ evidence_log name (fst (evidence page name (snd (fn (ext w))))))
             (stepResults w ++
                [mkStepResult name
                   (recorded_status (fst (fn (ext w))))
                   (Date_now (snd (evidence page name (snd (fn (ext w))))) - Date_now (ext w))
                   (recorded_url (fst (evidence page name (snd (fn (ext w))))))
                   (recorded_error (fst (fn (ext w))))])).
Proof.
  unfold runStep, evidence, bind, try_catch, io, zoom, now, ret, push, console_error,
    modify, throw; simpl.
  destruct (fn (ext w)) as [[u | e] e1]; simpl;
    destruct (takeStepScreenshot page name e1) as [[localPath | e'] e2]; simpl;
    try destruct (uploadToS3 localPath (JsString.split_slash_pop localPath) e2)
      as [[url | e''] e3]; simpl;
    unfold set_stepResults, set_ext; simpl; rewrite ?app_nil_r; reflexivity.
Qed.

(** The evidence phase is the capture followed by the upload. *)
Lemma evidence_run (page : Page) (nm : string) (e : Ext) :
  evidence page nm e =
    match takeStepScreenshot page nm e with
    | (Returned localPath, e2) =>
        uploadToS3 localPath (JsString.split_slash_pop localPath) e2
    | (Thrown err, e2) => (Thrown err, e2)
    end.
Proof. reflexivity. Qed.

End StepEquation.

Section StepRunner.
Context `{P : Platform}.

(** C1. Every invocation of [runStep] appends exactly one [StepResult] to
    [stepResults], whatever the work and the evidence phase do: the array
    after the call is the array before it followed by one record, which
    carries the name of the step. *)
Theorem runStep_appends_exactly_one (nm : string) (fn : Eff Ext unit) (page : Page)
    (w : World Ext) :
  exists r : StepResult,
    stepResults (snd (runStep nm fn page w)) = (stepResults w ++ [r])%list
    /\ name r = nm
    /\ length (stepResults (snd (runStep nm fn page w))) = S (length (stepResults w)).
Proof.
  rewrite runStep_run; simpl.
  eexists; split; [reflexivity |]; split; [reflexivity |].
  rewrite length_app; simpl; lia.
Qed.

(** C2. The recorded status is [error] exactly when the work raised, and
    then [errorMessage] is the message of the raised error; when the work
    returned the status is [success] and [errorMessage] is unset.  The
    evidence phase has no say: replacing the file system, screenshot and
    S3 operations by any others gives a record with the same status and
    the same [errorMessage]. *)
Theorem runStep_status_iff_work_raised (nm : string) (fn : Eff Ext unit) (page : Page)
    (w : World Ext) :
  exists r : StepResult,
    stepResults (snd (runStep nm fn page w)) = (stepResults w ++ [r])%list
    /\ (status r = error <-> exists e, fst (fn (ext w)) = Thrown e)
    /\ (forall e, fst (fn (ext w)) = Thrown e -> errorMessage r = Some (message e))
    /\ (forall u, fst (fn (ext w)) = Returned u ->
          status r = success /\ errorMessage r = None)
    /\ (forall mkdir' read' shot' send',
          exists r' : StepResult,
            stepResults (snd (@runStep (with_evidence_ops mkdir' read' shot' send')
                                       nm fn page w))
              = (stepResults w ++ [r'])%list
            /\ status r' = status r
            /\ errorMessage r' = errorMessage r).
Proof.
  rewrite runStep_run; simpl.
  eexists; split; [reflexivity |]; simpl.
  destruct (fst (fn (ext w))) as [u | e] eqn:Hwork; simpl.
  - split; [split; [discriminate | intros [e He]; discriminate] |].
    split; [intros e He; discriminate |].
    split; [intros _ _; split; reflexivity |].
    intros mkdir' read' shot' send'.
    rewrite (@runStep_run (with_evidence_ops mkdir' read' shot' send')); simpl.
    eexists; split; [reflexivity |]; simpl.
    rewrite Hwork; split; reflexivity.
  - split; [split; [intros _; eexists; reflexivity | reflexivity] |].
    split; [intros e0 He; injection He as ->; reflexivity |].
    split; [intros u Hu; discriminate |].
    intros mkdir' read' shot' send'.
    rewrite (@runStep_run (with_evidence_ops mkdir' read' shot' send')); simpl.
    eexists; split; [reflexivity |]; simpl.
    rewrite Hwork; split; reflexivity.
Qed.

(** C3. [runStep] raises exactly when the work raised, and the error it
    raises has the message of the work's error; when the work returned,
    [runStep] returns, also when the evidence phase raised. *)
Theorem runStep_raises_iff_work_raised (nm : string) (fn : Eff Ext unit) (page : Page)
    (w : World Ext) :
  ((exists e', fst (runStep nm fn page w) = Thrown e')
     <-> (exists e, fst (fn (ext w)) = Thrown e))
  /\ (forall e, fst (fn (ext w)) = Thrown e ->
        exists e', fst (runStep nm fn page w) = Thrown e' /\ message e' = message e)
  /\ (forall u, fst (fn (ext w)) = Returned u ->
        fst (runStep nm fn page w) = Returned tt)
  /\ (forall u e, fst (fn (ext w)) = Returned u ->
        fst (evidence page nm (snd (fn (ext w)))) = Thrown e ->
        fst (runStep nm fn page w) = Returned tt).
Proof.
  rewrite runStep_run; simpl.
  destruct (fst (fn (ext w))) as [u | e]; simpl.
  - split; [split; intros [e He]; discriminate |].
    split; [intros e He; discriminate |].
    split; [reflexivity |]. reflexivity.
  - split; [split; intros _; eexists; reflexivity |].
    split; [intros e0 He; injection He as ->; eexists; split; reflexivity |].
    split; [intros u Hu; discriminate |]. intros u e0 Hu; discriminate.
Qed.

(** C4. The recorded [screenshotUrl] is set, to the URL the upload
    returned, exactly when the capture and then the upload both returned.
    When either raised, the error is logged with [console.error] and goes
    no further: [screenshotUrl] stays unset, and a step whose work
    returned is still recorded as a success and [runStep] still returns. *)
Theorem runStep_screenshotUrl_iff_evidence (nm : string) (fn : Eff Ext unit) (page : Page)
    (w : World Ext) :
  exists r : StepResult,
    stepResults (snd (runStep nm fn page w)) = (stepResults w ++ [r])%list
    /\ (forall url,
          screenshotUrl r = Some url <->
          exists localPath e2 e3,
            takeStepScreenshot page nm (snd (fn (ext w))) = (Returned localPath, e2)
            /\ uploadToS3 localPath (JsString.split_slash_pop localPath) e2
               = (Returned url, e3))
    /\ (forall err,
          (exists e2, takeStepScreenshot page nm (snd (fn (ext w))) = (Thrown err, e2))
          \/ (exists localPath e2 e3,
                takeStepScreenshot page nm (snd (fn (ext w))) = (Returned localPath, e2)
                /\ uploadToS3 localPath (JsString.split_slash_pop localPath) e2
                   = (Thrown err, e3)) ->
          screenshotUrl r = None
          /\ console (snd (runStep nm fn page w))
             = (console w ++ [mkLogLine (screenshot_failure_label nm) (LogError err)])%list
          /\ (forall u, fst (fn (ext w)) = Returned u ->
                status r = success /\ fst (runStep nm fn page w) = Returned tt)).
Proof.
  rewrite runStep_run; simpl.
  eexists; split; [reflexivity |]; simpl.
  rewrite evidence_run.
  destruct (takeStepScreenshot page nm (snd (fn (ext w)))) as [[localPath | err0] e2];
    [destruct (uploadToS3 localPath (JsString.split_slash_pop localPath) e2)
       as [[url0 | err0] e3] eqn:Hup |]; simpl.
  - split.
    + intros url; split.
      * intros H; injection H as <-. exists localPath, e2, e3. split; [reflexivity | exact Hup].
      * intros (lp & e2' & e3' & H1 & H2).
        injection H1 as <- <-. rewrite Hup in H2. congruence.
    + intros err [(e2' & H) | (lp & e2' & e3' & H1 & H2)]; [discriminate |].
      injection H1 as <- <-. rewrite Hup in H2. discriminate.
  - split.
    + intros url; split; [discriminate |].
      intros (lp & e2' & e3' & H1 & H2). injection H1 as <- <-.
      rewrite Hup in H2. discriminate.
    + intros err [(e2' & H) | (lp & e2' & e3' & H1 & H2)]; [discriminate |].
      injection H1 as <- <-. rewrite Hup in H2.
      assert (err = err0) as -> by congruence.
      split; [reflexivity |]. split; [reflexivity |].
      intros u Hu; rewrite Hu; split; reflexivity.
  - split.
    + intros url; split; [discriminate |].
      intros (lp & e2' & e3' & H1 & H2). discriminate.
    + intros err [(e2' & H) | (lp & e2' & e3' & H1 & H2)]; [| discriminate].
      injection H as <- <-.
      split; [reflexivity |]. split; [reflexivity |].
      intros u Hu; rewrite Hu; split; reflexivity.
Qed.


End StepRunner.

(** ** Strings *)

Lemma has_slash_app (a b : string) :
  JsString.has_slash (a ++ b) = JsString.has_slash a || JsString.has_slash b.
Proof.
  induction a as [| c a IH]; simpl; [reflexivity |].
  rewrite IH, orb_assoc; reflexivity.
Qed.

Lemma after_first_slash_app (host path : string) :
  JsString.has_slash host = false ->
  JsString.after_first_slash (host ++ "/" ++ path) = path.
Proof.
  induction host as [| c host IH]; simpl; [reflexivity |].
  intros H; apply orb_false_iff in H as [Hc Hrest].
  rewrite Hc; auto.
Qed.

Lemma string_app_assoc (a b c : string) : (a ++ b) ++ c = a ++ (b ++ c).
Proof.
  induction a as [| x a IH]; [reflexivity |].
  change (String x ((a ++ b) ++ c) = String x (a ++ (b ++ c))).
  rewrite IH; reflexivity.
Qed.

Lemma string_app_nil_r (a : string) : a ++ EmptyString = a.
Proof.
  induction a as [| x a IH]; [reflexivity |].
  change (String x (a ++ EmptyString) = String x a).
  rewrite IH; reflexivity.
Qed.

(** ** JSON: reading back what [stringify] writes *)

Module JsonFacts.
Import Json.

Lemma unescape_escape_char (c : ascii) (x : string) :
  unescape Plain (escape_char c ++ x) = emit c (unescape Plain x).
Proof.
  destruct c as [[] [] [] [] [] [] [] []]; reflexivity.
Qed.

Lemma unescape_escape (s r : string) :
  unescape Plain (escape s ++ JsString.dquote ++ r) = Some (s, r).
Proof.
  induction s as [| c s IH]; [reflexivity |].
  cbn [escape]. rewrite string_app_assoc, unescape_escape_char, IH. reflexivity.
Qed.

Lemma pretty_N_char_digit (m : N) :
  (m < 10)%N ->
  is_digit (pretty_N_char m) = true /\ digit_value (pretty_N_char m) = m.
Proof.
  intros Hm.
  assert (m = 0 \/ m = 1 \/ m = 2 \/ m = 3 \/ m = 4 \/ m = 5 \/ m = 6 \/ m = 7
          \/ m = 8 \/ m = 9)%N as H by lia.
  repeat (destruct H as [-> | H]; [split; reflexivity |]). subst; split; reflexivity.
Qed.

Lemma pretty_N_go_app (x : N) (s r : string) :
  pretty_N_go x s ++ r = pretty_N_go x (s ++ r).
Proof.
  revert s. induction (N.lt_wf_0 x) as [x _ IH]; intros s.
  assert (x = 0 \/ 0 < x)%N as [-> | Hx] by lia.
  - rewrite !pretty_N_go_0. reflexivity.
  - rewrite (pretty_N_go_step x s), (pretty_N_go_step x (s ++ r)) by exact Hx.
    rewrite IH by (apply N.div_lt; lia). reflexivity.
Qed.

Lemma read_digits_pretty_N_go (x : N) (s : string) :
  read_digits 0 (pretty_N_go x s) = read_digits x s.
Proof.
  revert s. induction (N.lt_wf_0 x) as [x _ IH]; intros s.
  assert (x = 0 \/ 0 < x)%N as [-> | Hx] by lia.
  - rewrite pretty_N_go_0. reflexivity.
  - rewrite pretty_N_go_step by exact Hx.
    rewrite IH by (apply N.div_lt; lia).
    destruct (pretty_N_char_digit (x `mod` 10)%N) as [Hd Hv].
    { apply N.mod_lt. lia. }
    cbn [read_digits]. rewrite Hd, Hv.
    f_equal. rewrite (N.div_mod x 10) at 3 by lia. lia.
Qed.

Lemma read_digits_end (x : N) (r : string) :
  ends_number r -> read_digits x r = (x, r).
Proof.
  destruct r as [| c r]; [reflexivity |]. cbn. intros ->. reflexivity.
Qed.

Lemma pretty_N_go_head (x : N) (s : string) :
  (0 < x)%N ->
  exists c rest, pretty_N_go x s = String c rest /\ is_digit c = true.
Proof.
  revert s. induction (N.lt_wf_0 x) as [x _ IH]; intros s Hx.
  rewrite pretty_N_go_step by exact Hx.
  destruct (N.eq_0_gt_0_cases (x `div` 10)) as [-> | Hq].
  - rewrite pretty_N_go_0. eexists _, _. split; [reflexivity |].
    apply pretty_N_char_digit, N.mod_lt. lia.
  - apply IH; [apply N.div_lt; lia | exact Hq].
Qed.

Lemma pretty_positive_go (p : positive) (r : string) :
  pretty (Zpos p) ++ r = pretty_N_go (Npos p) r.
Proof.
  change (pretty (Zpos p)) with (pretty_N_go (Npos p) EmptyString).
  apply pretty_N_go_app.
Qed.

Lemma read_number_pretty (z : Z) (r : string) :
  ends_number r -> read_number (pretty z ++ r) = Some (z, r).
Proof.
  intros Hr. destruct z as [| p | p].
  - change (pretty 0%Z ++ r) with (String "0" r).
    change (read_number (String "0" r))
      with (let (n, rest) := read_digits 0 r in Some (Z.of_N n, rest)).
    rewrite (read_digits_end 0 r Hr). reflexivity.
  - rewrite pretty_positive_go.
    destruct (pretty_N_go_head (Npos p) r) as (c & rest & Heq & Hc); [lia |].
    assert (Hdash : Ascii.eqb c "-"%char = false).
    { destruct (Ascii.eqb c "-"%char) eqn:E; [| reflexivity].
      apply Ascii.eqb_eq in E; subst c. discriminate Hc. }
    unfold read_number. rewrite Heq, Hdash, Hc, <- Heq.
    rewrite read_digits_pretty_N_go, (read_digits_end _ r Hr). reflexivity.
  - change (pretty (Zneg p)) with ("-" ++ pretty (Zpos p)).
    rewrite string_app_assoc, pretty_positive_go.
    change (read_number ("-" ++ pretty_N_go (N.pos p) r))
      with (let (n, rest) := read_digits 0 (pretty_N_go (N.pos p) r) in
            Some (- Z.of_N n, rest)).
    rewrite read_digits_pretty_N_go, (read_digits_end _ r Hr). reflexivity.
Qed.

(** The first character of a serialised number. *)
Lemma pretty_head (z : Z) (r : string) :
  exists c rest, pretty z ++ r = String c rest
                 /\ (is_digit c || Ascii.eqb c "-"%char) = true.
Proof.
  destruct z as [| p | p].
  - eexists _, _. split; reflexivity.
  - rewrite pretty_positive_go.
    destruct (pretty_N_go_head (Npos p) r) as (c & rest & Heq & Hc); [lia |].
    exists c, rest. rewrite Hc. split; [exact Heq | reflexivity].
  - eexists _, _. split; reflexivity.
Qed.

Lemma quote_app (s r : string) :
  quote s ++ r = String (ascii_of_nat 34) (escape s ++ JsString.dquote ++ r).
Proof. unfold quote. rewrite !string_app_assoc. reflexivity. Qed.

Lemma concat_cons2 (sep x y : string) (l : list string) :
  String.concat sep (x :: y :: l) = x ++ sep ++ String.concat sep (y :: l).
Proof. reflexivity. Qed.

(** A serialised value does not start with a closing bracket. *)
Lemma stringify_head (v : json) (x : string) :
  exists c rest, stringify v ++ x = String c rest /\ Ascii.eqb c "]"%char = false.
Proof.
  destruct v as [| [] | z | s | items | fields];
    try (eexists _, _; split; reflexivity).
  cbn [stringify]. unfold JsString.of_number.
  destruct (pretty_head z x) as (c & rest & Heq & Hc).
  exists c, rest. split; [exact Heq |].
  destruct (Ascii.eqb c "]"%char) eqn:E; [| reflexivity].
  apply Ascii.eqb_eq in E; subst c. discriminate Hc.
Qed.

Lemma read_items_stringify (read : string -> option (json * string))
    (items : list json) (n : nat) (rest : string) :
  (forall v r, In v items -> ends_number r -> read (stringify v ++ r) = Some (v, r)) ->
  items <> [] ->
  (length items <= n)%nat ->
  read_items read n (String.concat "," (map stringify items) ++ "]" ++ rest)
  = Some (items, rest).
Proof.
  revert n. induction items as [| v items IH]; intros n Hread Hne Hlen; [congruence |].
  destruct n as [| n]; [cbn in Hlen; lia |].
  destruct items as [| v' items].
  - cbn [map String.concat read_items].
    rewrite Hread by (try left; reflexivity). reflexivity.
  - cbn [map]. rewrite concat_cons2, !string_app_assoc. cbn [read_items].
    rewrite Hread by (try left; reflexivity).
    change (("," ++ String.concat "," (stringify v' :: map stringify items)
                 ++ "]" ++ rest))
      with (String ","%char (String.concat "," (map stringify (v' :: items))
                               ++ "]" ++ rest)).
    cbn [Ascii.eqb Bool.eqb].
    rewrite IH; [reflexivity | | discriminate | cbn in *; lia].
    intros v0 r Hin. apply Hread. right. exact Hin.
Qed.

Lemma read_members_stringify (read : string -> option (json * string))
    (fields : list (string * json)) (n : nat) (rest : string) :
  (forall k v r, In (k, v) fields -> ends_number r ->
                 read (stringify v ++ r) = Some (v, r)) ->
  fields <> [] ->
  (length fields <= n)%nat ->
  read_members read n (String.concat "," (map member fields) ++ "}" ++ rest)
  = Some (fields, rest).
Proof.
  revert n. induction fields as [| [k v] fields IH]; intros n Hread Hne Hlen;
    [congruence |].
  destruct n as [| n]; [cbn in Hlen; lia |].
  destruct fields as [| kv' fields].
  - cbn [map String.concat member].
    rewrite !string_app_assoc, quote_app. cbn [read_members].
    rewrite Ascii.eqb_refl, unescape_escape.
    change (":" ++ stringify v ++ "}" ++ rest)
      with (String ":"%char (stringify v ++ "}" ++ rest)).
    cbn [Ascii.eqb Bool.eqb].
    rewrite (Hread k) by (try left; reflexivity). reflexivity.
  - cbn [map]. rewrite concat_cons2. cbn [member].
    rewrite !string_app_assoc, quote_app. cbn [read_members].
    rewrite Ascii.eqb_refl, unescape_escape.
    match goal with
    | |- context [":" ++ stringify v ++ ?tail] =>
        change (":" ++ stringify v ++ tail) with (String ":"%char (stringify v ++ tail))
    end.
    cbn [Ascii.eqb Bool.eqb].
    rewrite (Hread k) by (try left; reflexivity).
    match goal with
    | |- context ["," ++ String.concat "," ?l ++ ?tail] =>
        change ("," ++ String.concat "," l ++ tail)
          with (String ","%char (String.concat "," (map member (kv' :: fields)) ++ tail))
    end.
    cbn [Ascii.eqb Bool.eqb].
    rewrite IH; [reflexivity | | discriminate | cbn in *; lia].
    intros k0 v0 r Hin Hr. apply (Hread k0); [right; exact Hin | exact Hr].
Qed.

Lemma size_item_le (v : json) (items : list json) :
  In v items -> (S (size v) <= list_sum (map (fun v => S (size v)) items))%nat.
Proof.
  induction items as [| v' items IH]; [intros [] |].
  unfold list_sum in *.
  intros [-> | Hin]; cbn [map fold_right]; [lia | specialize (IH Hin); lia].
Qed.

Lemma size_field_le (k : string) (v : json) (fields : list (string * json)) :
  In (k, v) fields ->
  (S (size v) <= list_sum (map (fun kv => let '(_, v) := kv in S (size v)) fields))%nat.
Proof.
  induction fields as [| [k' v'] fields IH]; [intros [] |].
  unfold list_sum in *.
  intros [[= -> ->] | Hin]; cbn [map fold_right]; [lia | specialize (IH Hin); lia].
Qed.

Lemma length_le_sum {A} (f : A -> nat) (l : list A) :
  (length l <= list_sum (map (fun x => S (f x)) l))%nat.
Proof.
  unfold list_sum. induction l as [| x l IH]; cbn [length map fold_right]; lia.
Qed.

Lemma length_fields_le (fields : list (string * json)) :
  (length fields
   <= list_sum (map (fun kv : string * json => let '(_, v) := kv in S (size v)) fields))%nat.
Proof.
  unfold list_sum.
  induction fields as [| [k v] fields IH]; cbn [length map fold_right]; lia.
Qed.

(** Reading back a serialised value gives the value and the text after
    it, with fuel for every node. *)
Theorem parse_stringify (fuel : nat) (v : json) (r : string) :
  (size v <= fuel)%nat ->
  ends_number r ->
  parse fuel (stringify v ++ r) = Some (v, r).
Proof.
  revert v r. induction fuel as [| fuel IH]; intros v r Hsize Hr.
  { destruct v; cbn in Hsize; lia. }
  destruct v as [| [] | z | s | items | fields]; try reflexivity.
  - cbn [stringify]. unfold JsString.of_number.
    destruct (pretty_head z r) as (c & rest & Heq & Hc).
    rewrite Heq. cbn [parse]. rewrite Hc, <- Heq, (read_number_pretty z r Hr).
    reflexivity.
  - cbn [stringify]. rewrite quote_app.
    change (parse (S fuel) (String (ascii_of_nat 34) (escape s ++ JsString.dquote ++ r)))
      with (match unescape Plain (escape s ++ JsString.dquote ++ r) with
            | Some (str, rest) => Some (JString str, rest)
            | None => None
            end).
    rewrite unescape_escape. reflexivity.
  - cbn [stringify size] in *.
    destruct items as [| v items]; [reflexivity |].
    rewrite !string_app_assoc.
    set (l := v :: items) in *.
    assert (Hhead : exists c rest', String.concat "," (map stringify l) ++ "]" ++ r
                                    = String c rest'
                                    /\ Ascii.eqb c "]"%char = false).
    { subst l. destruct items as [| v' items].
      - cbn [map String.concat]. apply stringify_head.
      - cbn [map]. rewrite concat_cons2, !string_app_assoc. apply stringify_head. }
    destruct Hhead as (c & rest' & Hhead & Hc).
    change (parse (S fuel) ("[" ++ String.concat "," (map stringify l) ++ "]" ++ r))
      with (match String.concat "," (map stringify l) ++ "]" ++ r with
            | EmptyString => None
            | String c' rest0 =>
                if Ascii.eqb c' "]"%char then Some (JArray [], rest0)
                else match read_items (parse fuel) fuel
                             (String.concat "," (map stringify l) ++ "]" ++ r) with
                     | Some (vs, rest1) => Some (JArray vs, rest1)
                     | None => None
                     end
            end).
    rewrite Hhead, Hc, <- Hhead.
    rewrite read_items_stringify; [reflexivity | | subst l; discriminate |].
    + intros v0 r0 Hin Hr0. apply IH; [| exact Hr0].
      pose proof (size_item_le v0 l Hin). lia.
    + pose proof (length_le_sum size l). lia.
  - cbn [stringify size] in *.
    destruct fields as [| [k v] fields]; [reflexivity |].
    rewrite !string_app_assoc.
    set (l := (k, v) :: fields) in *.
    assert (Hhead : exists rest', String.concat "," (map member l) ++ "}" ++ r
                                  = String (ascii_of_nat 34) rest').
    { subst l. destruct fields as [| kv' fields].
      - cbn [map String.concat member]. rewrite !string_app_assoc, quote_app.
        eexists; reflexivity.
      - cbn [map]. rewrite concat_cons2. cbn [member]. rewrite !string_app_assoc, quote_app.
        eexists; reflexivity. }
    destruct Hhead as (rest' & Hhead).
    change (parse (S fuel)
              ("{" ++ String.concat ","
                        (map (fun kv => let '(k, v) := kv in quote k ++ ":" ++ stringify v) l)
                   ++ "}" ++ r))
      with (match String.concat "," (map member l) ++ "}" ++ r with
            | EmptyString => None
            | String c' rest0 =>
                if Ascii.eqb c' "}"%char then Some (JObject [], rest0)
                else match read_members (parse fuel) fuel
                             (String.concat "," (map member l) ++ "}" ++ r) with
                     | Some (fs, rest1) => Some (JObject fs, rest1)
                     | None => None
                     end
            end).
    rewrite Hhead. cbn [Ascii.eqb Bool.eqb ascii_of_nat]. rewrite <- Hhead.
    rewrite read_members_stringify; [reflexivity | | subst l; discriminate |].
    + intros k0 v0 r0 Hin Hr0. apply IH; [| exact Hr0].
      pose proof (size_field_le k0 v0 l Hin). lia.
    + pose proof (length_fields_le l). lia.
Qed.

(** Reading a whole serialised text gives the value back. *)
Lemma parse_stringify_whole (v : json) :
  parse (size v) (stringify v) = Some (v, EmptyString).
Proof.
  rewrite <- (string_app_nil_r (stringify v)) at 1.
  apply parse_stringify; [lia | exact I].
Qed.

(** Serialisation loses nothing: two values with the same text are equal. *)
Lemma stringify_inj (v1 v2 : json) : stringify v1 = stringify v2 -> v1 = v2.
Proof.
  intros Heq.
  assert (H1 : parse (size v1 + size v2) (stringify v1 ++ EmptyString)
               = Some (v1, EmptyString))
    by (apply parse_stringify; [lia | exact I]).
  assert (H2 : parse (size v1 + size v2) (stringify v2 ++ EmptyString)
               = Some (v2, EmptyString))
    by (apply parse_stringify; [lia | exact I]).
  rewrite Heq, H2 in H1. congruence.
Qed.

End JsonFacts.

(** ** The artifact uploader *)

Section Uploader.
Context `{P : Platform}.

(** C9. A call of [uploadToS3] that returns has read the file, has sent,
    successfully, a [PutObjectCommand] whose [Key] is
    [screenshots/<filename>] and whose [Body] is the content read, and
    returns [https://<bucket>.s3.<region>.amazonaws.com/] followed by that
    same key; when neither the bucket nor the region has a slash, the
    path of the returned URL is the key. *)
Theorem uploadToS3_url_addresses_stored_key (localPath filename : string)
    (e e' : Ext) (url : string) :
  uploadToS3 localPath filename e = (Returned url, e') ->
  exists (content : list byte) (e1 : Ext) (command : PutObjectCommand),
    readFile localPath e = (Returned content, e1)
    /\ command = mkPutObject (process_env !! "AWS_S3_BUCKET")
                             ("screenshots/" ++ filename) content "image/png"
    /\ S3Client_send s3 command e1 = (Returned tt, e')
    /\ url = "https://" ++ JsString.interpolate (process_env !! "AWS_S3_BUCKET")
               ++ ".s3." ++ JsString.interpolate (process_env !! "AWS_REGION")
               ++ ".amazonaws.com/screenshots/" ++ filename
    /\ url = "https://"
               ++ (JsString.interpolate (process_env !! "AWS_S3_BUCKET")
                     ++ ".s3." ++ JsString.interpolate (process_env !! "AWS_REGION")
                     ++ ".amazonaws.com")
               ++ "/" ++ Key command
    /\ (JsString.has_slash (JsString.interpolate (process_env !! "AWS_S3_BUCKET")) = false ->
        JsString.has_slash (JsString.interpolate (process_env !! "AWS_REGION")) = false ->
        JsString.url_path url = Key command).
Proof.
  unfold uploadToS3, bind, ret.
  destruct (readFile localPath e) as [[content | err] e1]; [| discriminate].
  destruct (S3Client_send s3 _ e1) as [[[] | err] e2] eqn:Hsend; [| discriminate].
  intros H; injection H as <- <-.
  exists content, e1, (mkPutObject (process_env !! "AWS_S3_BUCKET")
                         ("screenshots/" ++ filename) content "image/png").
  split; [reflexivity |]. split; [reflexivity |]. split; [exact Hsend |].
  split; [reflexivity |].
  assert (Hurl : "https://" ++ JsString.interpolate (process_env !! "AWS_S3_BUCKET")
                   ++ ".s3." ++ JsString.interpolate (process_env !! "AWS_REGION")
                   ++ ".amazonaws.com/screenshots/" ++ filename
                 = "https://"
                     ++ (JsString.interpolate (process_env !! "AWS_S3_BUCKET")
                           ++ ".s3." ++ JsString.interpolate (process_env !! "AWS_REGION")
                           ++ ".amazonaws.com")
                     ++ "/" ++ ("screenshots/" ++ filename)).
  { rewrite !string_app_assoc. reflexivity. }
  split; [exact Hurl |].
  intros Hbucket Hregion. rewrite Hurl.
  unfold JsString.url_path. cbn [JsString.drop_chars String.append].
  apply after_first_slash_app.
  rewrite !has_slash_app, Hbucket, Hregion. reflexivity.
Qed.

End Uploader.

(** ** Sequences of steps *)

Section Sequence.
Context `{P : Platform}.

Lemma runSteps_cons (nm : string) (fn : Eff Ext unit) (rest : list (string * Eff Ext unit))
    (page : Page) (w : World Ext) :
  runSteps ((nm, fn) :: rest) page w =
    match runStep nm fn page w with
    | (Returned _, w1) => runSteps rest page w1
    | (Thrown e, w1) => (Thrown e, w1)
    end.
Proof. reflexivity. Qed.



(** Any run appends the records of a prefix of its steps, in the order
    of the steps. *)
Lemma runSteps_results (steps : list (string * Eff Ext unit)) (page : Page)
    (w : World Ext) :
  exists rs : list StepResult,
    stepResults (snd (runSteps steps page w)) = (stepResults w ++ rs)%list
    /\ map name rs = take (length rs) (map fst steps).
Proof.
  revert w; induction steps as [| [nm fn] rest IH]; intros w.
  - exists []. cbn. rewrite app_nil_r. split; reflexivity.
  - rewrite runSteps_cons, runStep_run.
    destruct (fst (fn (ext w))) as [u | err]; cbn [step_outcome].
    + match goal with
      | |- context [runSteps rest page ?w1] => destruct (IH w1) as (rs & Hrs & Hnames)
      end.
      eexists (_ :: rs). rewrite Hrs; cbn [stepResults].
      rewrite <- app_assoc. split; [reflexivity |].
      cbn. rewrite Hnames. reflexivity.
    + eexists [_]. cbn. split; reflexivity.
Qed.

(** Only the last record of a run can be an error, and it is one exactly
    when the run raised, with the message of the error the run raised. *)
Lemma runSteps_statuses (steps : list (string * Eff Ext unit)) (page : Page)
    (w : World Ext) :
  exists rs : list StepResult,
    stepResults (snd (runSteps steps page w)) = (stepResults w ++ rs)%list
    /\ match fst (runSteps steps page w) with
       | Returned _ =>
           length rs = length steps /\ Forall (fun r => status r = success) rs
       | Thrown e =>
           exists (rs' : list StepResult) (r : StepResult),
             rs = (rs' ++ [r])%list
             /\ Forall (fun r => status r = success) rs'
             /\ status r = error
             /\ errorMessage r = Some (message e)
       end.
Proof.
  revert w; induction steps as [| [nm fn] rest IH]; intros w.
  - exists []. cbn. rewrite app_nil_r. repeat split. constructor.
  - rewrite runSteps_cons, runStep_run.
    destruct (fst (fn (ext w))) as [u | err] eqn:Hwork; cbn [step_outcome].
    + match goal with
      | |- context [runSteps rest page ?w1] => destruct (IH w1) as (rs & Hrs & Hout)
      end.
      eexists (_ :: rs). rewrite Hrs; cbn [stepResults].
      rewrite <- app_assoc. split; [reflexivity |].
      match goal with
      | |- context [runSteps rest page ?w1] =>
          destruct (fst (runSteps rest page w1)) as [u' | e]
      end.
      * destruct Hout as (Hlen & Hall). split; [cbn; rewrite Hlen; reflexivity |].
        constructor; [reflexivity | exact Hall].
      * destruct Hout as (rs' & r & -> & Hall & Hstatus & Hmsg).
        eexists (_ :: rs'), r. split; [reflexivity |].
        split; [constructor; [reflexivity | exact Hall] |].
        split; assumption.
    + eexists [_]. cbn [fst snd stepResults]. split; [reflexivity |].
      eexists [], _. split; [reflexivity |].
      split; [constructor |]. split; reflexivity.
Qed.


End Sequence.

(** ** The handler *)

Section Handler.
Context `{P : Platform}.

(** The [try] block: the setup, then the six steps in order, then the
    final screenshot, stopping at the first call that raises. *)
Lemma handler_try_run (f : Frame) :
  handler_try f =
    match handler_setup f with
    | (Thrown e, f1) => (Thrown e, f1)
    | (Returned page, f1) =>
        match runSteps (handler_steps page) page (world f1) with
        | (Thrown e, w2) => (Thrown e, set_world w2 f1)
        | (Returned _, w2) =>
            match takeScreenshot page "aegean-flight-booking" (ext w2) with
            | (Thrown e, e3) => (Thrown e, set_world (set_ext e3 w2) f1)
            | (Returned url, e3) =>
                (Returned tt,
                 mkFrame (var_browser f1) (Some url) (var_statusCode f1) (var_message f1)
                         (set_ext e3 w2))
            end
        end
    end.
Proof.
  unfold handler_try, handler_setup, handler_steps, runSteps, bind, await, in_world, io,
    zoom, assign_browser, assign_screenshotUrl, modify, ret; cbn.
  destruct_calls; reflexivity.
Qed.

(** The setup leaves the status code, the message, the screenshot URL and
    the result array as they are. *)
Lemma handler_setup_keeps (f : Frame) :
  var_statusCode (snd (handler_setup f)) = var_statusCode f
  /\ var_message (snd (handler_setup f)) = var_message f
  /\ var_screenshotUrl (snd (handler_setup f)) = var_screenshotUrl f
  /\ stepResults (world (snd (handler_setup f))) = stepResults (world f).
Proof.
  unfold handler_setup, bind, await, in_world, io, zoom, assign_browser, modify, ret; cbn.
  destruct_calls; repeat split; reflexivity.
Qed.

(** The [catch] block returns: it logs twice and sets the status code and
    the message. *)
Lemma handler_catch_run (err : Error) (f : Frame) :
  handler_catch err f =
    (Returned tt,
     mkFrame (var_browser f) (var_screenshotUrl f) 500 ("Error: " ++ message err)
             (mkWorld (ext (world f))
                      ((console (world f) ++ [mkLogLine "Error:" (LogError err)])
                         ++ [mkLogLine "Stack trace:" (LogStack err)])
                      (stepResults (world f)))).
Proof. reflexivity. Qed.

(** The [finally] block returns, also when closing the browser raises,
    and touches neither the variables of the report nor the result array. *)
Lemma handler_finally_run (f : Frame) :
  exists w' : World Ext,
    handler_finally f = (Returned tt, set_world w' f)
    /\ stepResults w' = stepResults (world f).
Proof.
  unfold handler_finally, bind, get, try_catch, await, in_world, io, zoom, console_error,
    modify, ret; cbn.
  destruct (var_browser f) as [browser |]; cbn.
  - destruct (browser_close browser (ext (world f))) as [[[] | err] e1]; cbn;
      eexists; split; reflexivity.
  - exists (world f). destruct f; split; reflexivity.
Qed.

(** What the [try] and [catch] blocks leave in the variables of the
    report, from the outcome of the [try] block. *)
Lemma try_block_vars (f : Frame) :
  stepResults (world (snd (try_catch handler_try handler_catch f)))
    = stepResults (world (snd (handler_try f)))
  /\ fst (try_catch handler_try handler_catch f) = Returned tt
  /\ match fst (handler_try f) with
     | Returned _ =>
         var_statusCode (snd (try_catch handler_try handler_catch f)) = var_statusCode f
         /\ var_message (snd (try_catch handler_try handler_catch f)) = var_message f
     | Thrown err =>
         var_statusCode (snd (try_catch handler_try handler_catch f)) = 500
         /\ var_message (snd (try_catch handler_try handler_catch f))
            = "Error: " ++ message err
         /\ var_screenshotUrl (snd (try_catch handler_try handler_catch f))
            = var_screenshotUrl f
     end.
Proof.
  unfold try_catch. rewrite handler_try_run.
  destruct (handler_setup_keeps f) as (Hcode & Hmsg & Hurl & _).
  destruct (handler_setup f) as [[page | err] f1]; cbn [fst snd] in *;
    [destruct (runSteps (handler_steps page) page (world f1)) as [[[] | err] w2];
     [destruct (takeScreenshot page "aegean-flight-booking" (ext w2))
        as [[url | err] e3] |] |];
    cbn; repeat split; solve [reflexivity | assumption].
Qed.

(** The handler as one equation: it returns the response built from the
    frame that the [try], [catch] and [finally] blocks leave. *)
Lemma handler_run (event : json) (w : World Ext) :
  handler event w =
    (Returned
       (mkResponse
          (var_statusCode
             (snd (handler_finally
                     (snd (try_catch handler_try handler_catch (initial_frame w))))))
          [("Content-Type", "application/json")]
          (Json.stringify
             (response_object
                (snd (handler_finally
                        (snd (try_catch handler_try handler_catch (initial_frame w)))))
                event))),
     world (snd (handler_finally
                   (snd (try_catch handler_try handler_catch (initial_frame w)))))).
Proof.
  unfold handler, handler_frame, response_object.
  unfold bind at 1. unfold in_world at 1, zoom at 1, modify at 1; cbn [fst snd world].
  change (set_world (set_stepResults [] w) (mkFrame None None 200 "Success" w))
    with (initial_frame w).
  unfold bind at 1, try_finally.
  destruct (try_block_vars (initial_frame w)) as (_ & Hret & _).
  destruct (try_catch handler_try handler_catch (initial_frame w)) as [r f1].
  cbn [fst snd] in *; subst r.
  destruct (handler_finally_run f1) as (w' & Hfin & _).
  rewrite Hfin.
  unfold bind, get, await, in_world, io, zoom, now, ret.
  cbn -[Json.stringify]. destruct w'; reflexivity.
Qed.

(** The result array the handler leaves is the one its [try] block left. *)
Lemma handler_stepResults (event : json) (w : World Ext) :
  stepResults (snd (handler event w))
  = stepResults (world (snd (handler_try (initial_frame w)))).
Proof.
  rewrite handler_run; cbn [snd].
  destruct (handler_finally_run
              (snd (try_catch handler_try handler_catch (initial_frame w))))
    as (w' & Hfin & Hkeep).
  rewrite Hfin; cbn [snd world set_world]. rewrite Hkeep.
  apply try_block_vars.
Qed.

(** A step reported as an error is the last one reported, and its message
    is the message of the error that ended the [try] block. *)
Lemma handler_failed_step (event : json) (w : World Ext) (r : StepResult) :
  r ∈ stepResults (snd (handler event w)) ->
  status r = error ->
  last (stepResults (snd (handler event w))) = Some r
  /\ exists e : Error,
       fst (handler_try (initial_frame w)) = Thrown e
       /\ errorMessage r = Some (message e).
Proof.
  rewrite handler_stepResults, handler_try_run.
  destruct (handler_setup_keeps (initial_frame w)) as (_ & _ & _ & Hres).
  destruct (handler_setup (initial_frame w)) as [[page | err] f1]; cbn [fst snd] in *.
  - destruct (runSteps_statuses (handler_steps page) page (world f1))
      as (rs & Hrs & Hout).
    rewrite Hres in Hrs; cbn [initial_frame world set_stepResults stepResults app] in Hrs.
    destruct (runSteps (handler_steps page) page (world f1)) as [[[] | err] w2];
      cbn [fst snd] in *.
    + destruct Hout as (_ & Hall).
      assert (Hno : r ∈ rs -> status r = error -> False).
      { intros Hin Herr. rewrite Forall_forall in Hall.
        specialize (Hall r Hin). congruence. }
      destruct (takeScreenshot page "aegean-flight-booking" (ext w2))
        as [[url | err] e3];
        cbn [fst snd world set_world set_ext stepResults]; rewrite Hrs;
        intros Hin Herr; destruct (Hno Hin Herr).
    + destruct Hout as (rs' & r0 & -> & Hall & Hstatus & Hmsg).
      cbn [fst snd world set_world stepResults]. rewrite Hrs.
      intros Hin Herr. apply elem_of_app in Hin as [Hin | Hin].
      * rewrite Forall_forall in Hall. specialize (Hall r Hin). congruence.
      * apply list_elem_of_singleton in Hin as ->.
        split; [apply last_snoc |]. exists err. split; [reflexivity | exact Hmsg].
  - rewrite Hres. cbn. intros Hin. apply elem_of_nil in Hin. destruct Hin.
Qed.

(** Whatever result array it starts on, the handler leaves the records of
    a prefix of its six steps, in the order it declares them. *)
Lemma handler_results_prefix (event : json) (w : World Ext) :
  exists n : nat,
    map name (stepResults (snd (handler event w))) = take n handler_step_names.
Proof.
  rewrite handler_run; cbn [snd].
  destruct (handler_finally_run
              (snd (try_catch handler_try handler_catch (initial_frame w))))
    as (w' & Hfin & Hkeep).
  rewrite Hfin; cbn [snd world set_world]. rewrite Hkeep.
  destruct (try_block_vars (initial_frame w)) as (-> & _).
  rewrite handler_try_run.
  destruct (handler_setup_keeps (initial_frame w)) as (_ & _ & _ & Hres).
  destruct (handler_setup (initial_frame w)) as [[page | err] f1]; cbn [fst snd] in *.
  - destruct (runSteps_results (handler_steps page) page (world f1))
      as (rs & Hrs & Hnames).
    rewrite Hres in Hrs; cbn [initial_frame world set_stepResults stepResults app] in Hrs.
    exists (length rs).
    destruct (runSteps (handler_steps page) page (world f1)) as [[[] | err] w2];
      [destruct (takeScreenshot page "aegean-flight-booking" (ext w2))
         as [[url | err] e3] |];
      cbn [fst snd world set_world set_ext stepResults] in *;
      rewrite Hrs; exact Hnames.
  - exists 0%nat. rewrite Hres. reflexivity.
Qed.

(** C6. The handler always returns a response and never raises, whatever
    fails in the setup, in a step, in the final screenshot or while
    closing the browser.  The body is the serialised object with
    [message], [timestamp], [screenshotUrl], [event] and [steps], the
    steps being the result array in order.  When the [try] block
    completes the status code is 200 and the message [Success]; when it
    raises, the status code is 500, the message is [Error: ] followed by
    the message of the error that ended the block, and [screenshotUrl] is
    [null]. *)
Theorem handler_always_responds (event : json) (w : World Ext) :
  exists (resp : APIGatewayProxyResult) (w' : World Ext)
         (msg : string) (url : option string),
    handler event w = (Returned resp, w')
    /\ headers resp = [("Content-Type", "application/json")]
    /\ body resp
       = Json.stringify
           (JObject [("message", JString msg);
                     ("timestamp", JString (Date_toISOString (Date_now (ext w'))));
                     ("screenshotUrl", Json.nullable url);
                     ("event", event);
                     ("steps", JArray (map StepResult_toJSON (stepResults w')))])
    /\ (statusCode resp = 200 \/ statusCode resp = 500)
    /\ (forall u, fst (handler_try (initial_frame w)) = Returned u ->
          statusCode resp = 200 /\ msg = "Success")
    /\ (forall err, fst (handler_try (initial_frame w)) = Thrown err ->
          statusCode resp = 500 /\ msg = "Error: " ++ message err /\ url = None).
Proof.
  rewrite handler_run.
  destruct (handler_finally_run
              (snd (try_catch handler_try handler_catch (initial_frame w))))
    as (w' & Hfin & _).
  rewrite Hfin; cbn [snd].
  destruct (try_block_vars (initial_frame w)) as (_ & _ & Hvars).
  set (f1 := snd (try_catch handler_try handler_catch (initial_frame w))) in *.
  exists (mkResponse (var_statusCode (set_world w' f1))
                     [("Content-Type", "application/json")]
                     (Json.stringify (response_object (set_world w' f1) event))),
         (world (set_world w' f1)), (var_message f1), (var_screenshotUrl f1).
  split; [reflexivity |]. split; [reflexivity |]. split; [reflexivity |].
  cbn [statusCode var_statusCode set_world].
  destruct (fst (handler_try (initial_frame w))) as [u | err0].
  - destruct Hvars as (Hcode & Hmsg). cbn in Hcode, Hmsg.
    split; [left; exact Hcode |].
    split; [intros _ _; split; assumption | intros err H; discriminate].
  - destruct Hvars as (Hcode & Hmsg & Hurl). cbn in Hurl.
    split; [right; exact Hcode |].
    split; [intros u H; discriminate |].
    intros err H; injection H as <-. repeat split; assumption.
Qed.

(** C7. The handler empties the result array before anything else: run
    on a world with any leftover array, it does exactly what it does on
    the world with the empty one, so the steps it reports are the records
    of this run, a prefix of its six steps.  Emptying twice is emptying
    once. *)
Theorem handler_resets_stepResults (event : json) (w : World Ext)
    (leftover : list StepResult) :
  handler event (set_stepResults leftover w) = handler event (set_stepResults [] w)
  /\ set_stepResults [] (set_stepResults leftover w) = set_stepResults [] w
  /\ set_stepResults [] (set_stepResults [] w) = set_stepResults [] w
  /\ exists n : nat,
       map name (stepResults (snd (handler event (set_stepResults leftover w))))
       = take n handler_step_names.
Proof.
  split; [rewrite !handler_run; reflexivity |].
  split; [reflexivity |]. split; [reflexivity |].
  apply handler_results_prefix.
Qed.

(** C10. Every response of the handler, with either status code, has as
    body the serialised object whose properties are [message],
    [timestamp], [screenshotUrl], [event] and [steps], in this order, and
    the value of [event] is the event the handler was called with,
    unchanged: reading the body back gives that object, and every value
    that serialises to the body has the event under [event]. *)
Theorem handler_body_carries_event (event : json) (w : World Ext) :
  exists (resp : APIGatewayProxyResult) (w' : World Ext) (payload : json)
         (msg ts : string) (url : json) (steps : list json),
    handler event w = (Returned resp, w')
    /\ (statusCode resp = 200 \/ statusCode resp = 500)
    /\ body resp = Json.stringify payload
    /\ payload = JObject [("message", JString msg); ("timestamp", JString ts);
                          ("screenshotUrl", url); ("event", event);
                          ("steps", JArray steps)]
    /\ Json.property "event" payload = Some event
    /\ Json.parse (Json.size payload) (body resp) = Some (payload, EmptyString)
    /\ (forall payload' : json,
          body resp = Json.stringify payload' ->
          Json.property "event" payload' = Some event).
Proof.
  rewrite handler_run. unfold response_object.
  do 7 eexists. split; [reflexivity |]. cbn [statusCode body].
  split; [| split; [reflexivity |]; split; [reflexivity |]; split; [reflexivity |];
            split].
  - destruct (handler_finally_run
                (snd (try_catch handler_try handler_catch (initial_frame w))))
      as (w' & Hfin & _).
    rewrite Hfin; cbn [snd var_statusCode set_world].
    destruct (try_block_vars (initial_frame w)) as (_ & _ & Hvars).
    destruct (fst (handler_try (initial_frame w))).
    + left. apply Hvars.
    + right. apply Hvars.
  - apply JsonFacts.parse_stringify_whole.
  - intros payload' Heq. apply JsonFacts.stringify_inj in Heq. subst payload'.
    reflexivity.
Qed.

End Handler.

(** ** Runs on the simulated platform *)

Section Runs.
Local Existing Instance Sim.platform.

(** The four combinations of work and evidence outcome, one record each. *)
Example work_ok_evidence_ok :
  stepResults (snd (runStep "Navigate to Aegean" (goto_url Sim.page0) Sim.page0
                            (Sim.boot 1000 5 [])))
  = [mkStepResult "Navigate to Aegean" success 25
       (Some ("https://technical-playwright-result.s3.us-east-2.amazonaws.com/"
                ++ "screenshots/step-navigate_to_aegean-1005.png"))
       None].
Proof. vm_compute. reflexivity. Qed.

Example work_ok_evidence_fails :
  runStep "Navigate to Aegean" (goto_url Sim.page0) Sim.page0 (Sim.boot 1000 5 ["s3.send"])
  = (Returned tt,
     mkWorld (Sim.mkSimExt 1025 5 {[ "s3.send" ]}
                {[ "/tmp/screenshots/step-navigate_to_aegean-1005.png" := Sim.png ]} ∅)
             [mkLogLine (screenshot_failure_label "Navigate to Aegean")
                        (LogError (mkError "s3.send failed"))]
             [mkStepResult "Navigate to Aegean" success 25 None None]).
Proof. vm_compute. reflexivity. Qed.

Example work_fails_evidence_ok :
  stepResults (snd (runStep "Navigate to Aegean" (goto_url Sim.page0) Sim.page0
                            (Sim.boot 1000 5 ["page.goto"])))
  = [mkStepResult "Navigate to Aegean" error 25
       (Some ("https://technical-playwright-result.s3.us-east-2.amazonaws.com/"
                ++ "screenshots/step-navigate_to_aegean-1005.png"))
       (Some "page.goto failed")].
Proof. vm_compute. reflexivity. Qed.

Example work_fails_evidence_fails :
  (fst (runStep "Navigate to Aegean" (goto_url Sim.page0) Sim.page0
                (Sim.boot 1000 5 ["page.goto"; "page.screenshot"])),
   stepResults (snd (runStep "Navigate to Aegean" (goto_url Sim.page0) Sim.page0
                             (Sim.boot 1000 5 ["page.goto"; "page.screenshot"]))))
  = (Thrown (mkError "page.goto failed"),
     [mkStepResult "Navigate to Aegean" error 15 None (Some "page.goto failed")]).
Proof. vm_compute. reflexivity. Qed.

(** The file name keeps only the last segment of the local path, and the
    step name is lower-cased with white space collapsed. *)
Example file_name_of_step :
  fst (takeStepScreenshot Sim.page0 ("Round-trip / One  Way" ++ String (ascii_of_nat 9) "X")
                          (Sim.machine 41 1 []))
  = Returned "/tmp/screenshots/step-round-trip_/_one_way_x-41.png"
  /\ JsString.split_slash_pop "/tmp/screenshots/step-round-trip_/_one_way_x-41.png"
     = "_one_way_x-41.png".
Proof. split; vm_compute; reflexivity. Qed.

(** An upload that succeeds leaves the content under the key the URL ends
    with. *)
Example upload_stores_object :
  match uploadToS3 "/tmp/screenshots/step-a-1.png" "step-a-1.png"
                   (Sim.disk "/tmp/screenshots/step-a-1.png") with
  | (Returned url, e') =>
      url = "https://technical-playwright-result.s3.us-east-2.amazonaws.com/screenshots/step-a-1.png"
      /\ Sim.objects e' !! ("technical-playwright-result", JsString.url_path url)
         = Some Sim.png
  | (Thrown _, _) => False
  end.
Proof. vm_compute. split; reflexivity. Qed.

(** The two scenarios of a two-step run: both succeed; the second raises. *)
Example two_steps_succeed :
  (fst (runSteps [("Navigate", goto_url Sim.page0);
                  ("Validate", validate_search_button Sim.page0)] Sim.page0
                 (Sim.boot 0 1 [])),
   map (fun r => (name r, status r))
       (stepResults (snd (runSteps [("Navigate", goto_url Sim.page0);
                                    ("Validate", validate_search_button Sim.page0)] Sim.page0
                                   (Sim.boot 0 1 [])))))
  = (Returned tt, [("Navigate", success); ("Validate", success)]).
Proof. vm_compute. reflexivity. Qed.

Example second_step_raises :
  (fst (runSteps [("Navigate", goto_url Sim.page0);
                  ("Validate", validate_search_button Sim.page0)] Sim.page0
                 (Sim.boot 0 1 ["validate search"])),
   map (fun r => (name r, status r, errorMessage r))
       (stepResults (snd (runSteps [("Navigate", goto_url Sim.page0);
                                    ("Validate", validate_search_button Sim.page0)] Sim.page0
                                   (Sim.boot 0 1 ["validate search"])))))
  = (Thrown (mkError "validate search failed"),
     [("Navigate", success, None);
      ("Validate", error, Some "validate search failed")]).
Proof. vm_compute. reflexivity. Qed.

(** The handler when the second step raises and closing the browser
    raises too: status 500, the message of the step, two steps reported,
    leftovers gone. *)
Example handler_second_step_raises :
  fst (handler (JObject [("path", JString "/run")])
               (set_stepResults [Sim.stale]
                  (Sim.boot 1000 5 ["page.waitForSelector"; "browser.close"])))
  = Returned
      (mkResponse 500 [("Content-Type", "application/json")]
         (Json.stringify
            (JObject
               [("message", JString "Error: page.waitForSelector failed");
                ("timestamp", JString "T+1080");
                ("screenshotUrl", JNull);
                ("event", JObject [("path", JString "/run")]);
                ("steps",
                 JArray
                   [JObject [("name", JString "Navigate to Aegean");
                             ("status", JString "success");
                             ("durationMs", JNumber 25);
                             ("screenshotUrl",
                              JString ("https://technical-playwright-result.s3.us-east-2"
                                         ++ ".amazonaws.com/screenshots/"
                                         ++ "step-navigate_to_aegean-1030.png"))];
                    JObject [("name", JString "Wait for booking component");
                             ("status", JString "error");
                             ("durationMs", JNumber 25);
                             ("errorMessage", JString "page.waitForSelector failed");
                             ("screenshotUrl",
                              JString ("https://technical-playwright-result.s3.us-east-2"
                                         ++ ".amazonaws.com/screenshots/"
                                         ++ "step-wait_for_booking_component-1055.png"))]])]))).
Proof. vm_compute. reflexivity. Qed.

(** Reading that body back gives the event the handler was called with. *)
Example handler_body_read_back :
  match fst (handler (JObject [("path", JString "/run"); ("retries", JNumber (-3))])
                     (Sim.boot 1000 5 ["page.waitForSelector"])) with
  | Returned resp =>
      match Json.parse 64 (body resp) with
      | Some (payload, rest) =>
          rest = EmptyString
          /\ Json.property "event" payload
             = Some (JObject [("path", JString "/run"); ("retries", JNumber (-3))])
          /\ Json.property "screenshotUrl" payload = Some JNull
      | None => False
      end
  | Thrown _ => False
  end.
Proof. vm_compute. repeat split; reflexivity. Qed.

(** The browser does not launch: no step runs, the handler still answers. *)
Example handler_launch_fails :
  (match fst (handler JNull (Sim.boot 0 1 ["playwright.launch"])) with
   | Returned resp => Some (statusCode resp)
   | Thrown _ => None
   end,
   stepResults (snd (handler JNull (Sim.boot 0 1 ["playwright.launch"]))))
  = (Some 500, []).
Proof. vm_compute. reflexivity. Qed.


(** An upload of a file that is on the disk. *)
Lemma uploadToS3_url_addresses_stored_key_witness :
  uploadToS3 Sim.shot_path Sim.shot_name (Sim.disk Sim.shot_path)
  = (Returned Sim.shot_url,
     snd (uploadToS3 Sim.shot_path Sim.shot_name (Sim.disk Sim.shot_path)))
  /\ exists (content : list byte) (e1 : Ext) (command : PutObjectCommand),
       readFile Sim.shot_path (Sim.disk Sim.shot_path) = (Returned content, e1)
       /\ Key command = "screenshots/step-a-1.png"
       /\ Body command = content
       /\ S3Client_send s3 command e1
          = (Returned tt,
             snd (uploadToS3 Sim.shot_path Sim.shot_name (Sim.disk Sim.shot_path)))
       /\ JsString.url_path Sim.shot_url = Key command.
Proof.
  assert (H : uploadToS3 Sim.shot_path Sim.shot_name (Sim.disk Sim.shot_path)
              = (Returned Sim.shot_url,
                 snd (uploadToS3 Sim.shot_path Sim.shot_name (Sim.disk Sim.shot_path))))
    by (vm_compute; reflexivity).
  split; [exact H |].
  destruct (uploadToS3_url_addresses_stored_key _ _ _ _ _ H)
    as (content & e1 & command & Hread & Hcmd & Hsend & _ & _ & Hpath).
  exists content, e1, command.
  split; [exact Hread |].
  split; [rewrite Hcmd; reflexivity |].
  split; [rewrite Hcmd; reflexivity |].
  split; [exact Hsend |].
  apply Hpath; vm_compute; reflexivity.
Defined.


End Runs.

(** ** Names of screenshot files *)

Section NameFacts.




Lemma lower_char_slash (c : ascii) :
  Ascii.eqb (JsString.lower_char c) "/"%char = Ascii.eqb c "/"%char.
Proof. destruct c as [[] [] [] [] [] [] [] []]; reflexivity. Qed.

Lemma space_not_slash (c : ascii) :
  JsString.is_space c = true -> Ascii.eqb c "/"%char = false.
Proof.
  destruct c as [[] [] [] [] [] [] [] []]; intros H;
    first [reflexivity | discriminate H].
Qed.














(** *** The last segment of a path *)

Lemma has_slash_snoc (acc : string) (c : ascii) :
  JsString.has_slash (acc ++ String c EmptyString)
  = (JsString.has_slash acc || Ascii.eqb c "/"%char)%bool.
Proof.
  rewrite has_slash_app. cbn [JsString.has_slash]. rewrite orb_false_r. reflexivity.
Qed.

Lemma last_segment_from_no_slash (acc s : string) :
  JsString.has_slash s = false -> JsString.last_segment_from acc s = acc ++ s.
Proof.
  revert acc; induction s as [| c s IH]; intros acc H.
  - cbn. rewrite string_app_nil_r. reflexivity.
  - cbn [JsString.has_slash] in H. apply orb_false_iff in H as [Hc Hs].
    cbn [JsString.last_segment_from]. rewrite Hc, IH by exact Hs.
    rewrite string_app_assoc. reflexivity.
Qed.

Lemma last_segment_from_after_slash (acc a b : string) :
  JsString.last_segment_from acc (a ++ String "/"%char b)
  = JsString.last_segment_from EmptyString b.
Proof.
  revert acc; induction a as [| c a IH]; intros acc.
  - reflexivity.
  - change (String c a ++ String "/"%char b) with (String c (a ++ String "/"%char b)).
    cbn [JsString.last_segment_from]. destruct (Ascii.eqb c "/"%char); apply IH.
Qed.

Lemma last_segment_from_slash_free (acc s : string) :
  JsString.has_slash acc = false ->
  JsString.has_slash (JsString.last_segment_from acc s) = false.
Proof.
  revert acc; induction s as [| c s IH]; intros acc H; [exact H |].
  cbn [JsString.last_segment_from].
  destruct (Ascii.eqb c "/"%char) eqn:Hc; [apply IH; reflexivity |].
  apply IH. rewrite has_slash_snoc, H, Hc. reflexivity.
Qed.

Lemma last_segment_from_forgets (acc s : string) :
  JsString.has_slash s = true ->
  JsString.last_segment_from acc s = JsString.last_segment_from EmptyString s.
Proof.
  revert acc; induction s as [| c s IH]; intros acc H; [discriminate H |].
  cbn [JsString.has_slash] in H. cbn [JsString.last_segment_from].
  destruct (Ascii.eqb c "/"%char); [reflexivity |].
  cbn [orb] in H. rewrite (IH (acc ++ String c EmptyString) H).
  rewrite (IH (EmptyString ++ String c EmptyString) H). reflexivity.
Qed.

(** X4. [split("/").pop()] gives the text after the last slash: its
    result has no slash, a path without a slash is its own last segment,
    and whatever stands before a slash is dropped. *)
Theorem split_slash_pop_is_last_segment (dir file : string) :
  JsString.has_slash (JsString.split_slash_pop file) = false
  /\ (JsString.has_slash file = false -> JsString.split_slash_pop file = file)
  /\ JsString.split_slash_pop (dir ++ String "/"%char file)
     = JsString.split_slash_pop file.
Proof.
  unfold JsString.split_slash_pop. split; [apply last_segment_from_slash_free; reflexivity |].
  split; [intros H; apply (last_segment_from_no_slash EmptyString file H) |].
  apply last_segment_from_after_slash.
Qed.

(** *** [replace(/[:.]/g, "-")] *)

Lemma replace_colon_dot_clean (s : string) :
  Chars.all (fun c => negb (Chars.is_colon_dot c)) (JsString.replace_colon_dot s) = true.
Proof.
  induction s as [| c s IH]; [reflexivity |].
  cbn [JsString.replace_colon_dot Chars.all]. rewrite IH, andb_true_r.
  fold (Chars.is_colon_dot c). destruct (Chars.is_colon_dot c) eqn:Hc;
    [reflexivity | rewrite Hc; reflexivity].
Qed.

Lemma replace_colon_dot_fixed (s : string) :
  Chars.all (fun c => negb (Chars.is_colon_dot c)) s = true ->
  JsString.replace_colon_dot s = s.
Proof.
  induction s as [| c s IH]; intros H; [reflexivity |].
  cbn [Chars.all] in H. apply andb_true_iff in H as [Hc Hs].
  apply negb_true_iff in Hc. cbn [JsString.replace_colon_dot].
  fold (Chars.is_colon_dot c). rewrite Hc, IH by exact Hs. reflexivity.
Qed.

(** X5. The time stamp in the name of the final screenshot holds neither
    colon nor dot, is as long as the ISO string it comes from, differs from
    it only where that had a colon or a dot, and rewriting it again changes
    nothing. *)
Theorem replace_colon_dot_facts (iso : string) :
  Chars.all (fun c => negb (Chars.is_colon_dot c)) (JsString.replace_colon_dot iso) = true
  /\ String.length (JsString.replace_colon_dot iso) = String.length iso
  /\ (forall n : nat,
        String.get n (JsString.replace_colon_dot iso)
        = option_map (fun c => if Chars.is_colon_dot c then "-"%char else c)
                     (String.get n iso))
  /\ JsString.replace_colon_dot (JsString.replace_colon_dot iso)
     = JsString.replace_colon_dot iso.
Proof.
  split; [apply replace_colon_dot_clean |].
  split; [induction iso as [| c s IH]; cbn; [reflexivity | rewrite IH; reflexivity] |].
  split; [| apply replace_colon_dot_fixed, replace_colon_dot_clean].
  induction iso as [| c s IH]; intros n; [reflexivity |].
  cbn [JsString.replace_colon_dot]. destruct n as [| n]; [reflexivity |].
  cbn [String.get]. apply IH.
Qed.

End NameFacts.

(** ** From the step name to the stored object *)

Section Evidence.
Context `{P : Platform}.

Lemma toLowerCase_has_slash (s : string) :
  JsString.has_slash (JsString.toLowerCase s) = JsString.has_slash s.
Proof.
  induction s as [| c s IH]; [reflexivity |].
  cbn [JsString.toLowerCase JsString.has_slash]. rewrite lower_char_slash, IH. reflexivity.
Qed.

Lemma replace_spaces_from_has_slash (in_run : bool) (s : string) :
  JsString.has_slash (JsString.replace_spaces_from in_run s) = JsString.has_slash s.
Proof.
  revert in_run; induction s as [| c s IH]; intros in_run; [reflexivity |].
  cbn [JsString.replace_spaces_from JsString.has_slash].
  destruct (JsString.is_space c) eqn:Hc.
  - rewrite (space_not_slash c Hc).
    destruct in_run; cbn [JsString.has_slash orb Ascii.eqb Bool.eqb]; apply IH.
  - cbn [JsString.has_slash]. rewrite IH. reflexivity.
Qed.

Lemma sanitized_has_slash (s : string) :
  JsString.has_slash (sanitized s) = JsString.has_slash s.
Proof.
  unfold sanitized, JsString.replace_spaces.
  rewrite toLowerCase_has_slash. apply replace_spaces_from_has_slash.
Qed.

Lemma digit_not_slash (c : ascii) :
  Json.is_digit c = true -> Ascii.eqb c "/"%char = false.
Proof.
  destruct c as [[] [] [] [] [] [] [] []]; intros H;
    first [reflexivity | discriminate H].
Qed.

Lemma pretty_N_go_has_slash (x : N) (s : string) :
  JsString.has_slash (pretty_N_go x s) = JsString.has_slash s.
Proof.
  revert s. induction (N.lt_wf_0 x) as [x _ IH]; intros s.
  destruct (N.eq_0_gt_0_cases x) as [-> | Hx].
  - rewrite pretty_N_go_0. reflexivity.
  - rewrite pretty_N_go_step by exact Hx.
    rewrite IH by (apply N.div_lt; [exact Hx | reflexivity]).
    cbn [JsString.has_slash].
    destruct (JsonFacts.pretty_N_char_digit (x `mod` 10)%N) as [Hd _].
    { apply N.mod_lt. discriminate. }
    rewrite (digit_not_slash _ Hd). reflexivity.
Qed.

Lemma of_number_has_slash (z : Z) : JsString.has_slash (JsString.of_number z) = false.
Proof.
  unfold JsString.of_number. destruct z as [| p | p].
  - reflexivity.
  - change (pretty (Zpos p)) with (pretty_N_go (Npos p) EmptyString).
    apply pretty_N_go_has_slash.
  - change (pretty (Zneg p)) with ("-" ++ pretty_N_go (Npos p) EmptyString).
    rewrite has_slash_app, pretty_N_go_has_slash. reflexivity.
Qed.

Lemma step_file_tail_has_slash (stepName : string) (t : Z) :
  JsString.has_slash (sanitized stepName ++ "-" ++ JsString.of_number t ++ ".png")
  = JsString.has_slash stepName.
Proof.
  rewrite !has_slash_app, sanitized_has_slash, of_number_has_slash.
  cbn. rewrite orb_false_r. reflexivity.
Qed.

(** The name [runStep] uploads under, from the step name and the clock. *)
Lemma upload_name (stepName : string) (t : Z) :
  JsString.split_slash_pop ("/tmp/screenshots/" ++ step_file_name stepName t)
  = if JsString.has_slash stepName
    then JsString.split_slash_pop
           (sanitized stepName ++ "-" ++ JsString.of_number t ++ ".png")
    else step_file_name stepName t.
Proof.
  unfold JsString.split_slash_pop.
  change ("/tmp/screenshots/" ++ step_file_name stepName t)
    with ("/tmp/screenshots" ++ String "/"%char (step_file_name stepName t)).
  rewrite last_segment_from_after_slash.
  pose proof (step_file_tail_has_slash stepName t) as Htail.
  destruct (JsString.has_slash stepName).
  - unfold step_file_name.
    change (JsString.last_segment_from EmptyString
              ("step-" ++ sanitized stepName ++ "-" ++ JsString.of_number t ++ ".png"))
      with (JsString.last_segment_from "step-"
              (sanitized stepName ++ "-" ++ JsString.of_number t ++ ".png")).
    apply last_segment_from_forgets, Htail.
  - apply (last_segment_from_no_slash EmptyString).
    unfold step_file_name. rewrite has_slash_app. exact Htail.
Qed.

(** X6. The file name [runStep] hands to the uploader.  When
    [takeStepScreenshot] returns a path for a step name without a slash,
    the name is the name of the local file, [step-<sanitised>-<clock>.png],
    and the path is [/tmp/screenshots/] followed by it.  For a step name
    with a slash only the text after the last slash of the file name is
    kept, so the [step-] prefix is lost. *)
Theorem upload_name_of_step (page : Page) (stepName localPath : string) (e e' : Ext) :
  takeStepScreenshot page stepName e = (Returned localPath, e') ->
  localPath = "/tmp/screenshots/" ++ step_file_name stepName (Date_now e)
  /\ (JsString.has_slash stepName = false ->
      JsString.split_slash_pop localPath = step_file_name stepName (Date_now e)
      /\ localPath = "/tmp/screenshots/" ++ JsString.split_slash_pop localPath)
  /\ (JsString.has_slash stepName = true ->
      JsString.split_slash_pop localPath
      = JsString.split_slash_pop
          (sanitized stepName ++ "-" ++ JsString.of_number (Date_now e) ++ ".png")).
Proof.
  unfold takeStepScreenshot, bind, now, ret.
  destruct (fs_mkdir "/tmp/screenshots" e) as [[[] | err] e1]; [| discriminate].
  destruct (page_screenshot page _ e1) as [[[] | err] e2]; [| discriminate].
  intros [= <- <-].
  fold (sanitized stepName). fold (step_file_name stepName (Date_now e)).
  split; [reflexivity |].
  rewrite upload_name.
  split; intros ->; [split |]; reflexivity.
Qed.

(** The evidence phase, call by call. *)
Lemma evidence_calls (page : Page) (nm : string) (e : Ext) :
  evidence page nm e =
    match fs_mkdir "/tmp/screenshots" e with
    | (Thrown err, e1) => (Thrown err, e1)
    | (Returned _, e1) =>
        match page_screenshot page (step_path nm (Date_now e)) e1 with
        | (Thrown err, e2) => (Thrown err, e2)
        | (Returned _, e2) =>
            match readFile (step_path nm (Date_now e)) e2 with
            | (Thrown err, e3) => (Thrown err, e3)
            | (Returned content, e3) =>
                match S3Client_send s3
                        (put_command
                           (JsString.split_slash_pop (step_path nm (Date_now e))) content)
                        e3 with
                | (Thrown err, e4) => (Thrown err, e4)
                | (Returned _, e4) =>
                    (Returned
                       (object_url (JsString.split_slash_pop (step_path nm (Date_now e)))),
                     e4)
                end
            end
        end
    end.
Proof.
  unfold evidence, takeStepScreenshot, uploadToS3, bind, now, ret.
  fold (sanitized nm). fold (step_file_name nm (Date_now e)).
  fold (step_path nm (Date_now e)).
  destruct (fs_mkdir "/tmp/screenshots" e) as [[[] | err] e1]; [| reflexivity].
  destruct (page_screenshot page (step_path nm (Date_now e)) e1) as [[[] | err] e2];
    [| reflexivity].
  destruct (readFile (step_path nm (Date_now e)) e2) as [[content | err] e3];
    [| reflexivity].
  reflexivity.
Qed.

(** X7. The URL a step records.  It is the bucket URL followed by
    [screenshots/] and the last segment of the local path, whose clock part
    is the clock read when the work is over; for a step name without a
    slash that is [screenshots/step-<sanitised>-<clock>.png]. *)
Theorem runStep_url_of_step (nm : string) (fn : Eff Ext unit) (page : Page)
    (w : World Ext) :
  exists r : StepResult,
    stepResults (snd (runStep nm fn page w)) = (stepResults w ++ [r])%list
    /\ forall url : string,
         screenshotUrl r = Some url ->
         url = object_url
                 (JsString.split_slash_pop
                    (step_path nm (Date_now (snd (fn (ext w))))))
         /\ (JsString.has_slash nm = false ->
             url = object_url (step_file_name nm (Date_now (snd (fn (ext w)))))).
Proof.
  rewrite runStep_run; cbn [snd stepResults].
  eexists; split; [reflexivity |]. cbn [screenshotUrl].
  rewrite evidence_calls.
  destruct (fs_mkdir "/tmp/screenshots" (snd (fn (ext w)))) as [[[] | err] e1];
    [| discriminate].
  destruct (page_screenshot page _ e1) as [[[] | err] e2]; [| discriminate].
  destruct (readFile _ e2) as [[content | err] e3]; [| discriminate].
  destruct (S3Client_send s3 _ e3) as [[[] | err] e4]; [| discriminate].
  cbn [fst recorded_url]. intros url [= <-].
  split; [reflexivity |].
  intros Hslash. unfold step_path. rewrite upload_name, Hslash. reflexivity.
Qed.

(** X8. The evidence phase stops at the first call that raises: what is
    logged is the error of that call, the calls after it are not made (the
    outside world is left as that call left it), and no URL is recorded.
    So a directory that cannot be made means no screenshot is asked of the
    page, and a file that cannot be read means S3 is not contacted. *)
Theorem runStep_evidence_stops_at_first_failure (nm : string) (fn : Eff Ext unit)
    (page : Page) (w : World Ext) (err : Error) (e' : Ext) :
  fs_mkdir "/tmp/screenshots" (snd (fn (ext w))) = (Thrown err, e')
  \/ (exists e1,
        fs_mkdir "/tmp/screenshots" (snd (fn (ext w))) = (Returned tt, e1)
        /\ page_screenshot page (step_path nm (Date_now (snd (fn (ext w))))) e1
           = (Thrown err, e'))
  \/ (exists e1 e2,
        fs_mkdir "/tmp/screenshots" (snd (fn (ext w))) = (Returned tt, e1)
        /\ page_screenshot page (step_path nm (Date_now (snd (fn (ext w))))) e1
           = (Returned tt, e2)
        /\ readFile (step_path nm (Date_now (snd (fn (ext w))))) e2 = (Thrown err, e'))
  \/ (exists e1 e2 content e3,
        fs_mkdir "/tmp/screenshots" (snd (fn (ext w))) = (Returned tt, e1)
        /\ page_screenshot page (step_path nm (Date_now (snd (fn (ext w))))) e1
           = (Returned tt, e2)
        /\ readFile (step_path nm (Date_now (snd (fn (ext w))))) e2
           = (Returned content, e3)
        /\ S3Client_send s3
             (put_command
                (JsString.split_slash_pop (step_path nm (Date_now (snd (fn (ext w))))))
                content) e3
           = (Thrown err, e')) ->
  ext (snd (runStep nm fn page w)) = e'
  /\ console (snd (runStep nm fn page w))
     = (console w ++ [mkLogLine (screenshot_failure_label nm) (LogError err)])%list
  /\ exists r : StepResult,
       stepResults (snd (runStep nm fn page w)) = (stepResults w ++ [r])%list
       /\ screenshotUrl r = None.
Proof.
  intros H. rewrite runStep_run; cbn [snd ext console stepResults].
  rewrite evidence_calls.
  destruct H as [H | [(e1 & H1 & H) | [(e1 & e2 & H1 & H2 & H)
                                     | (e1 & e2 & content & e3 & H1 & H2 & H3 & H)]]].
  - rewrite H. cbn. repeat split. eexists; split; reflexivity.
  - rewrite H1, H. cbn. repeat split. eexists; split; reflexivity.
  - rewrite H1, H2, H. cbn. repeat split. eexists; split; reflexivity.
  - rewrite H1, H2, H3, H. cbn. repeat split. eexists; split; reflexivity.
Qed.


(** X10. The final screenshot.  When [takeScreenshot] returns, the page
    wrote the screenshot to [/tmp/screenshots/<name>-<stamp>.png], that same
    file was read and sent with key [screenshots/<name>-<stamp>.png], and the
    URL returned is the bucket URL followed by that key; the label is used
    as it is, and the stamp is the ISO time of the clock read on entry.  When
    the page cannot write the screenshot, nothing is read and nothing is
    sent. *)
Theorem takeScreenshot_uploads_what_it_wrote (page : Page) (name : string) (e : Ext) :
  (forall url e',
     takeScreenshot page name e = (Returned url, e') ->
     exists e1 content e2,
       page_screenshot page ("/tmp/screenshots/" ++ final_file_name name (Date_now e)) e
       = (Returned tt, e1)
       /\ readFile ("/tmp/screenshots/" ++ final_file_name name (Date_now e)) e1
          = (Returned content, e2)
       /\ S3Client_send s3 (put_command (final_file_name name (Date_now e)) content) e2
          = (Returned tt, e')
       /\ url = object_url (final_file_name name (Date_now e)))
  /\ (forall err e1,
        page_screenshot page ("/tmp/screenshots/" ++ final_file_name name (Date_now e)) e
        = (Thrown err, e1) ->
        takeScreenshot page name e = (Thrown err, e1)).
Proof.
  unfold takeScreenshot, uploadToS3, bind, now, ret.
  fold (final_file_name name (Date_now e)).
  destruct (page_screenshot page _ e) as [[[] | err0] e1].
  - split; [| intros err e1' H; discriminate].
    destruct (readFile _ e1) as [[content | err] e2] eqn:Hread; [| discriminate].
    destruct (S3Client_send s3 _ e2) as [[[] | err] e3] eqn:Hsend; [| discriminate].
    intros url e' [= <- <-]. exists e1, content, e2.
    split; [reflexivity |]. split; [exact Hread |]. split; [exact Hsend | reflexivity].
  - split; [discriminate |]. intros err e1' [= <- <-]. reflexivity.
Qed.

End Evidence.

(** ** More on the step runner and on runs *)

Section MoreSteps.
Context `{P : Platform}.

(** X11. The evidence phase runs after a failed work too: when the work
    raises and the capture and the upload return, the record is an error
    that carries both the message and the URL of the screenshot, nothing
    is logged, and [runStep] raises the work's message. *)
Theorem runStep_keeps_evidence_of_failed_work (nm : string) (fn : Eff Ext unit)
    (page : Page) (w : World Ext) (err : Error) (url : string) (e' : Ext) :
  fst (fn (ext w)) = Thrown err ->
  evidence page nm (snd (fn (ext w))) = (Returned url, e') ->
  runStep nm fn page w
  = (Thrown (mkError (message err)),
     mkWorld e' (console w)
             (stepResults w
                ++ [mkStepResult nm error (Date_now e' - Date_now (ext w)) (Some url)
                                 (Some (message err))])).
Proof.
  intros Hwork Hev. rewrite runStep_run, Hwork, Hev. cbn.
  rewrite app_nil_r. reflexivity.
Qed.

(** X12. [runStep] does not read what is already recorded: on the same
    outside world it has the same outcome, leaves the same outside world,
    appends the same record and logs the same lines (at most one),
    whatever the result array and the console held before. *)
Theorem runStep_ignores_earlier_results (nm : string) (fn : Eff Ext unit) (page : Page)
    (e : Ext) :
  exists (o : Outcome unit) (e' : Ext) (lines : list LogLine) (r : StepResult),
    (length lines <= 1)%nat
    /\ forall (c : list LogLine) (l : list StepResult),
         runStep nm fn page (mkWorld e c l)
         = (o, mkWorld e' (c ++ lines) (l ++ [r])).
Proof.
  exists (step_outcome (fst (fn e))), (snd (evidence page nm (snd (fn e)))),
         (evidence_log nm (fst (evidence page nm (snd (fn e))))),
         (mkStepResult nm (recorded_status (fst (fn e)))
            (Date_now (snd (evidence page nm (snd (fn e)))) - Date_now e)
            (recorded_url (fst (evidence page nm (snd (fn e)))))
            (recorded_error (fst (fn e)))).
  split.
  - destruct (fst (evidence page nm (snd (fn e)))); cbn; lia.
  - intros c l. rewrite runStep_run. reflexivity.
Qed.

(** X13. Any run of steps, of any length: the records it appends carry
    the names of a prefix of the steps, in order; when the run returns
    there is one record per step and all are successes; when it raises,
    the last record is the only error and carries the message of the error
    the run raised. *)
Theorem run_records_prefix_and_only_last_fails (steps : list (string * Eff Ext unit))
    (page : Page) (w : World Ext) :
  exists rs : list StepResult,
    stepResults (snd (runSteps steps page w)) = (stepResults w ++ rs)%list
    /\ map name rs = take (length rs) (map fst steps)
    /\ match fst (runSteps steps page w) with
       | Returned _ =>
           length rs = length steps /\ Forall (fun r => status r = success) rs
       | Thrown e =>
           exists (rs' : list StepResult) (r : StepResult),
             rs = (rs' ++ [r])%list
             /\ Forall (fun r => status r = success) rs'
             /\ status r = error
             /\ errorMessage r = Some (message e)
       end.
Proof.
  destruct (runSteps_results steps page w) as (rs & Hrs & Hnames).
  destruct (runSteps_statuses steps page w) as (rs2 & Hrs2 & Hout).
  assert (rs2 = rs) as -> by (rewrite Hrs in Hrs2; exact (app_inv_head _ _ _ (eq_sym Hrs2))).
  exists rs. repeat split; assumption.
Qed.



End MoreSteps.

(** ** More on the handler *)

Section MoreHandler.
Context `{P : Platform}.

Lemma handler_world (event : json) (w : World Ext) :
  snd (handler event w) = world (snd (handler_finally (after_try w))).
Proof. rewrite handler_run. reflexivity. Qed.

(** The browser variable after the setup: set exactly when the launch
    returned. *)
Lemma handler_setup_browser (f : Frame) :
  var_browser (snd (handler_setup f)) =
    match ensureDirectoriesExist (ext (world f)) with
    | (Returned _, e1) =>
        match chromium_executablePath e1 with
        | (Returned path, e2) =>
            match playwright_launch path e2 with
            | (Returned b, _) => Some b
            | (Thrown _, _) => var_browser f
            end
        | (Thrown _, _) => var_browser f
        end
    | (Thrown _, _) => var_browser f
    end.
Proof.
  unfold handler_setup, bind, await, in_world, io, zoom, assign_browser, modify, ret; cbn.
  destruct_calls; reflexivity.
Qed.

Lemma after_try_browser (w : World Ext) :
  var_browser (after_try w) = var_browser (snd (handler_setup (initial_frame w))).
Proof.
  unfold after_try, try_catch. rewrite handler_try_run.
  destruct (handler_setup (initial_frame w)) as [[page | err] f1]; cbn [fst snd];
    [destruct (runSteps (handler_steps page) page (world f1)) as [[[] | err] w2];
     [destruct (takeScreenshot page "aegean-flight-booking" (ext w2))
        as [[url | err] e3] |] |];
    reflexivity.
Qed.

(** The [finally] block, by the browser variable. *)
Lemma handler_finally_world (f : Frame) :
  world (snd (handler_finally f)) =
    match var_browser f with
    | Some b =>
        mkWorld (snd (browser_close b (ext (world f))))
                (console (world f) ++ close_log (fst (browser_close b (ext (world f)))))
                (stepResults (world f))
    | None => world f
    end.
Proof.
  unfold handler_finally, bind, get, try_catch, await, in_world, io, zoom, console_error,
    modify, ret; cbn.
  destruct (var_browser f) as [b |]; cbn; [| reflexivity].
  destruct (browser_close b (ext (world f))) as [[[] | err] e1]; cbn;
    rewrite ?app_nil_r; reflexivity.
Qed.

(** X15. The browser is closed exactly when it was launched.  When the
    launch returned a browser, the handler ends by closing that browser in
    the world the [try] and [catch] blocks left, on success and on failure
    alike, and a failure to close only adds one line to the log.  When the
    launch was not reached or raised, nothing is closed and nothing more is
    logged. *)
Theorem handler_closes_browser_iff_launched (event : json) (w : World Ext) :
  (forall path b e1 e2 e3,
     ensureDirectoriesExist (ext w) = (Returned tt, e1) ->
     chromium_executablePath e1 = (Returned path, e2) ->
     playwright_launch path e2 = (Returned b, e3) ->
     snd (handler event w)
     = mkWorld (snd (browser_close b (ext (world (after_try w)))))
               (console (world (after_try w))
                  ++ close_log (fst (browser_close b (ext (world (after_try w))))))
               (stepResults (world (after_try w))))
  /\ ((exists err e1, ensureDirectoriesExist (ext w) = (Thrown err, e1))
      \/ (exists e1 err e2,
            ensureDirectoriesExist (ext w) = (Returned tt, e1)
            /\ chromium_executablePath e1 = (Thrown err, e2))
      \/ (exists e1 path e2 err e3,
            ensureDirectoriesExist (ext w) = (Returned tt, e1)
            /\ chromium_executablePath e1 = (Returned path, e2)
            /\ playwright_launch path e2 = (Thrown err, e3)) ->
      snd (handler event w) = world (after_try w)).
Proof.
  rewrite handler_world, handler_finally_world, after_try_browser, handler_setup_browser.
  cbn [initial_frame world set_stepResults ext var_browser].
  split.
  - intros path b e1 e2 e3 H1 H2 H3. rewrite H1, H2, H3. reflexivity.
  - intros [(err & e1 & H1) | [(e1 & err & e2 & H1 & H2)
                              | (e1 & path & e2 & err & e3 & H1 & H2 & H3)]].
    + rewrite H1. reflexivity.
    + rewrite H1, H2. reflexivity.
    + rewrite H1, H2, H3. reflexivity.
Qed.

(** The response, from the frame the [try] and [catch] blocks leave. *)
Lemma handler_response (event : json) (w : World Ext) :
  fst (handler event w)
  = Returned
      (mkResponse
         (var_statusCode (after_try w))
         [("Content-Type", "application/json")]
         (Json.stringify
            (JObject
               [("message", JString (var_message (after_try w)));
                ("timestamp",
                 JString (Date_toISOString (Date_now (ext (snd (handler event w))))));
                ("screenshotUrl", Json.nullable (var_screenshotUrl (after_try w)));
                ("event", event);
                ("steps",
                 JArray (map StepResult_toJSON (stepResults (snd (handler event w)))))]))).
Proof.
  rewrite handler_run. fold (after_try w). cbn [fst snd]. unfold response_object.
  destruct (handler_finally_run (after_try w)) as (w' & Hfin & _).
  rewrite Hfin. reflexivity.
Qed.

(** The frame after the [try] and [catch] blocks, by where the [try]
    block ended. *)
Lemma after_try_run (w : World Ext) :
  after_try w =
    match handler_setup (initial_frame w) with
    | (Thrown e, f1) => snd (handler_catch e f1)
    | (Returned page, f1) =>
        match runSteps (handler_steps page) page (world f1) with
        | (Thrown e, w2) => snd (handler_catch e (set_world w2 f1))
        | (Returned _, w2) =>
            match takeScreenshot page "aegean-flight-booking" (ext w2) with
            | (Thrown e, e3) => snd (handler_catch e (set_world (set_ext e3 w2) f1))
            | (Returned url, e3) =>
                mkFrame (var_browser f1) (Some url) (var_statusCode f1) (var_message f1)
                        (set_ext e3 w2)
            end
        end
    end.
Proof.
  unfold after_try, try_catch. rewrite handler_try_run.
  destruct (handler_setup (initial_frame w)) as [[page | err] f1];
    [destruct (runSteps (handler_steps page) page (world f1)) as [[[] | err] w2];
     [destruct (takeScreenshot page "aegean-flight-booking" (ext w2))
        as [[url | err] e3] |] |];
    reflexivity.
Qed.

(** X16. A run where nothing raises: the status code is 200, the message
    is [Success], [screenshotUrl] is a string, and the steps are the six
    steps of the handler in the order it declares them, all successes. *)
Theorem handler_success_report (event : json) (w : World Ext) (u : unit) :
  fst (handler_try (initial_frame w)) = Returned u ->
  exists (resp : APIGatewayProxyResult) (url : string),
    fst (handler event w) = Returned resp
    /\ statusCode resp = 200
    /\ body resp
       = Json.stringify
           (JObject
              [("message", JString "Success");
               ("timestamp",
                JString (Date_toISOString (Date_now (ext (snd (handler event w))))));
               ("screenshotUrl", JString url);
               ("event", event);
               ("steps",
                JArray (map StepResult_toJSON (stepResults (snd (handler event w)))))])
    /\ map name (stepResults (snd (handler event w))) = handler_step_names
    /\ Forall (fun r => status r = success) (stepResults (snd (handler event w))).
Proof.
  intros Htry. rewrite handler_response, handler_stepResults.
  revert Htry. rewrite after_try_run, handler_try_run.
  destruct (handler_setup_keeps (initial_frame w)) as (Hcode & Hmsg & _ & Hres).
  destruct (handler_setup (initial_frame w)) as [[page | err] f1]; cbn [fst snd] in *;
    [| discriminate].
  destruct (runSteps_results (handler_steps page) page (world f1))
    as (rs & Hrs & Hnames).
  destruct (runSteps_statuses (handler_steps page) page (world f1))
    as (rs2 & Hrs2 & Hout).
  assert (rs2 = rs) as -> by (rewrite Hrs in Hrs2; exact (app_inv_head _ _ _ (eq_sym Hrs2))).
  rewrite Hres in Hrs; cbn [initial_frame world set_stepResults stepResults app] in Hrs.
  destruct (runSteps (handler_steps page) page (world f1)) as [[[] | err] w2];
    cbn [fst snd] in *; [| discriminate].
  destruct (takeScreenshot page "aegean-flight-booking" (ext w2)) as [[url | err] e3];
    cbn [fst snd]; [| discriminate].
  intros _. destruct Hout as (Hlen & Hall).
  eexists _, url. split; [reflexivity |].
  cbn [statusCode body var_statusCode var_message var_screenshotUrl Json.nullable
       world set_ext stepResults].
  rewrite Hcode, Hmsg, Hrs. cbn [initial_frame var_statusCode var_message].
  split; [reflexivity |]. split; [reflexivity |].
  split; [| exact Hall].
  rewrite Hnames, Hlen. reflexivity.
Qed.

(** X17. When the setup raises (the directories, the executable path,
    the launch, the context or the page), no step runs: the steps are
    empty, the status code is 500, the message is [Error: ] followed by the
    message of the setup's error, and [screenshotUrl] is [null]. *)
Theorem handler_setup_failure_runs_no_step (event : json) (w : World Ext) (err : Error) :
  fst (handler_setup (initial_frame w)) = Thrown err ->
  stepResults (snd (handler event w)) = []
  /\ exists resp : APIGatewayProxyResult,
       fst (handler event w) = Returned resp
       /\ statusCode resp = 500
       /\ body resp
          = Json.stringify
              (JObject
                 [("message", JString ("Error: " ++ message err));
                  ("timestamp",
                   JString (Date_toISOString (Date_now (ext (snd (handler event w))))));
                  ("screenshotUrl", JNull);
                  ("event", event);
                  ("steps", JArray [])]).
Proof.
  intros Hsetup.
  assert (Hsteps : stepResults (snd (handler event w)) = []).
  { rewrite handler_stepResults, handler_try_run.
    destruct (handler_setup_keeps (initial_frame w)) as (_ & _ & _ & Hres).
    destruct (handler_setup (initial_frame w)) as [[page | err'] f1];
      [discriminate | exact Hres]. }
  split; [exact Hsteps |].
  rewrite handler_response, Hsteps, after_try_run.
  destruct (handler_setup_keeps (initial_frame w)) as (_ & _ & Hurl & _).
  destruct (handler_setup (initial_frame w)) as [[page | err'] f1]; cbn [fst snd] in *;
    [discriminate |].
  injection Hsetup as ->. rewrite handler_catch_run.
  eexists; split; [reflexivity |].
  cbn [snd statusCode body var_statusCode var_message var_screenshotUrl].
  rewrite Hurl. cbn. split; reflexivity.
Qed.

(** X18. A failed run need not report a failed step: when the [try]
    block raises and every reported step is a success, either no step ran
    (the setup raised) or all six steps ran (the final screenshot raised). *)
Theorem handler_failure_without_failed_step (event : json) (w : World Ext) (err : Error) :
  fst (handler_try (initial_frame w)) = Thrown err ->
  Forall (fun r => status r = success) (stepResults (snd (handler event w))) ->
  stepResults (snd (handler event w)) = []
  \/ map name (stepResults (snd (handler event w))) = handler_step_names.
Proof.
  rewrite handler_stepResults, handler_try_run.
  destruct (handler_setup_keeps (initial_frame w)) as (_ & _ & _ & Hres).
  destruct (handler_setup (initial_frame w)) as [[page | err'] f1]; cbn [fst snd] in *;
    [| intros _ _; left; exact Hres].
  destruct (runSteps_results (handler_steps page) page (world f1))
    as (rs & Hrs & Hnames).
  destruct (runSteps_statuses (handler_steps page) page (world f1))
    as (rs2 & Hrs2 & Hout).
  assert (rs2 = rs) as -> by (rewrite Hrs in Hrs2; exact (app_inv_head _ _ _ (eq_sym Hrs2))).
  rewrite Hres in Hrs; cbn [initial_frame world set_stepResults stepResults app] in Hrs.
  destruct (runSteps (handler_steps page) page (world f1)) as [[[] | err'] w2];
    cbn [fst snd] in *.
  - destruct Hout as (Hlen & _).
    destruct (takeScreenshot page "aegean-flight-booking" (ext w2)) as [[url | err'] e3];
      cbn [fst snd world set_world set_ext stepResults]; [discriminate |].
    intros _ _. right. rewrite Hrs, Hnames, Hlen. reflexivity.
  - destruct Hout as (rs' & r & -> & _ & Hstatus & _).
    cbn [world set_world stepResults]. rewrite Hrs. intros _ Hall.
    apply Forall_app in Hall as [_ Hall]. apply Forall_inv in Hall. congruence.
Qed.

(** X19. A step reported as an error is the last step reported, and the
    response says so: the status code is 500 and the message is [Error: ]
    followed by the [errorMessage] of that step. *)
Theorem handler_reports_failed_step (event : json) (w : World Ext) (r : StepResult) :
  r ∈ stepResults (snd (handler event w)) ->
  status r = error ->
  last (stepResults (snd (handler event w))) = Some r
  /\ exists (resp : APIGatewayProxyResult) (m : string),
       fst (handler event w) = Returned resp
       /\ errorMessage r = Some m
       /\ statusCode resp = 500
       /\ body resp
          = Json.stringify
              (JObject
                 [("message", JString ("Error: " ++ m));
                  ("timestamp",
                   JString (Date_toISOString (Date_now (ext (snd (handler event w))))));
                  ("screenshotUrl", JNull);
                  ("event", event);
                  ("steps",
                   JArray (map StepResult_toJSON (stepResults (snd (handler event w)))))]).
Proof.
  intros Hin Herr.
  destruct (handler_failed_step event w r Hin Herr) as (Hlast & e & Htry & Hmsg).
  split; [exact Hlast |].
  rewrite handler_response.
  destruct (try_block_vars (initial_frame w)) as (_ & _ & Hvars).
  rewrite Htry in Hvars. fold (after_try w) in Hvars.
  destruct Hvars as (Hcode & Hm & Hurl).
  eexists _, (message e). split; [reflexivity |]. split; [exact Hmsg |].
  cbn [statusCode body]. rewrite Hcode, Hm, Hurl. split; reflexivity.
Qed.

(** A step result can be read off the object it serialises to. *)
Lemma StepResult_toJSON_inj (r1 r2 : StepResult) :
  StepResult_toJSON r1 = StepResult_toJSON r2 -> r1 = r2.
Proof.
  destruct r1 as [n1 s1 d1 u1 m1], r2 as [n2 s2 d2 u2 m2]. unfold StepResult_toJSON.
  cbn [name status durationMs screenshotUrl errorMessage].
  destruct s1, s2, u1 as [u1 |], u2 as [u2 |], m1 as [m1 |], m2 as [m2 |]; cbn;
    intros H; try discriminate H; injection H; intros; subst; reflexivity.
Qed.

Lemma map_StepResult_toJSON_inj (l1 l2 : list StepResult) :
  map StepResult_toJSON l1 = map StepResult_toJSON l2 -> l1 = l2.
Proof.
  revert l2; induction l1 as [| r1 l1 IH]; intros [| r2 l2] H;
    try discriminate H; [reflexivity |].
  cbn [map] in H.
  assert (Hr : StepResult_toJSON r1 = StepResult_toJSON r2) by congruence.
  assert (Hl : map StepResult_toJSON l1 = map StepResult_toJSON l2) by congruence.
  apply StepResult_toJSON_inj in Hr. rewrite Hr, (IH l2 Hl). reflexivity.
Qed.

(** X20. The steps of a report lose nothing when serialised: two result
    arrays whose serialised texts are equal are equal, so the name, the
    status, the duration, the URL and the message of every step can be read
    back from the body, an unset URL or message staying apart from a set
    one. *)
Theorem steps_serialisation_injective (l1 l2 : list StepResult) :
  Json.stringify (JArray (map StepResult_toJSON l1))
  = Json.stringify (JArray (map StepResult_toJSON l2)) ->
  l1 = l2.
Proof.
  intros H. apply JsonFacts.stringify_inj in H. injection H as H.
  apply map_StepResult_toJSON_inj, H.
Qed.

End MoreHandler.

(** ** More runs on the simulated platform *)

Section MoreRuns.
Local Existing Instance Sim.platform.


(** A step name with a slash: the uploaded name is what follows it. *)
Lemma upload_name_of_step_witness :
  takeStepScreenshot Sim.page0 "Round-trip / One Way" (Sim.machine 41 1 [])
  = (Returned "/tmp/screenshots/step-round-trip_/_one_way-41.png",
     snd (takeStepScreenshot Sim.page0 "Round-trip / One Way" (Sim.machine 41 1 [])))
  /\ JsString.split_slash_pop "/tmp/screenshots/step-round-trip_/_one_way-41.png"
     = "_one_way-41.png".
Proof.
  assert (H : takeStepScreenshot Sim.page0 "Round-trip / One Way" (Sim.machine 41 1 [])
              = (Returned "/tmp/screenshots/step-round-trip_/_one_way-41.png",
                 snd (takeStepScreenshot Sim.page0 "Round-trip / One Way"
                                         (Sim.machine 41 1 []))))
    by (vm_compute; reflexivity).
  split; [exact H |].
  destruct (upload_name_of_step _ _ _ _ _ H) as (_ & _ & Hslash).
  rewrite Hslash by reflexivity. vm_compute. reflexivity.
Defined.

(** The directory cannot be made: the world is left as [mkdir] left it. *)
Lemma runStep_evidence_stops_at_first_failure_witness :
  fs_mkdir "/tmp/screenshots" (snd (goto_url Sim.page0 (ext (Sim.boot 1000 5 ["fs.mkdir"]))))
  = (Thrown (mkError "fs.mkdir failed"), Sim.machine 1010 5 ["fs.mkdir"])
  /\ ext (snd (runStep "A" (goto_url Sim.page0) Sim.page0 (Sim.boot 1000 5 ["fs.mkdir"])))
     = Sim.machine 1010 5 ["fs.mkdir"].
Proof.
  assert (H : fs_mkdir "/tmp/screenshots"
                (snd (goto_url Sim.page0 (ext (Sim.boot 1000 5 ["fs.mkdir"]))))
              = (Thrown (mkError "fs.mkdir failed"), Sim.machine 1010 5 ["fs.mkdir"]))
    by (vm_compute; reflexivity).
  split; [exact H |].
  apply (runStep_evidence_stops_at_first_failure "A" (goto_url Sim.page0) Sim.page0
           (Sim.boot 1000 5 ["fs.mkdir"]) (mkError "fs.mkdir failed")
           (Sim.machine 1010 5 ["fs.mkdir"]) (or_introl H)).
Defined.


(** The navigation raises and the screenshot of the failed page is kept. *)
Lemma runStep_keeps_evidence_of_failed_work_witness :
  fst (goto_url Sim.page0 (ext (Sim.boot 1000 5 ["page.goto"])))
  = Thrown (mkError "page.goto failed")
  /\ evidence Sim.page0 "A" (snd (goto_url Sim.page0 (ext (Sim.boot 1000 5 ["page.goto"]))))
     = (Returned (object_url "step-a-1005.png"),
        snd (evidence Sim.page0 "A"
               (snd (goto_url Sim.page0 (ext (Sim.boot 1000 5 ["page.goto"]))))))
  /\ fst (runStep "A" (goto_url Sim.page0) Sim.page0 (Sim.boot 1000 5 ["page.goto"]))
     = Thrown (mkError "page.goto failed").
Proof.
  assert (H1 : fst (goto_url Sim.page0 (ext (Sim.boot 1000 5 ["page.goto"])))
               = Thrown (mkError "page.goto failed")) by (vm_compute; reflexivity).
  assert (H2 : evidence Sim.page0 "A"
                 (snd (goto_url Sim.page0 (ext (Sim.boot 1000 5 ["page.goto"]))))
               = (Returned (object_url "step-a-1005.png"),
                  snd (evidence Sim.page0 "A"
                         (snd (goto_url Sim.page0 (ext (Sim.boot 1000 5 ["page.goto"])))))))
    by (vm_compute; reflexivity).
  split; [exact H1 |]. split; [exact H2 |].
  rewrite (runStep_keeps_evidence_of_failed_work _ _ _ _ _ _ _ H1 H2). reflexivity.
Defined.

(** Nothing fails. *)
Lemma handler_success_report_witness :
  fst (handler_try (initial_frame (Sim.boot 1000 5 []))) = Returned tt
  /\ exists resp : APIGatewayProxyResult,
       fst (handler JNull (Sim.boot 1000 5 [])) = Returned resp
       /\ statusCode resp = 200
       /\ map name (stepResults (snd (handler JNull (Sim.boot 1000 5 []))))
          = handler_step_names.
Proof.
  assert (H : fst (handler_try (initial_frame (Sim.boot 1000 5 []))) = Returned tt)
    by (vm_compute; reflexivity).
  split; [exact H |].
  destruct (handler_success_report (P := Sim.platform) JNull (Sim.boot 1000 5 []) tt H)
    as (resp & url & Hresp & Hcode & _ & Hnames & _).
  exists resp. split; [exact Hresp |]. split; [exact Hcode | exact Hnames].
Defined.

(** The browser does not launch. *)
Lemma handler_setup_failure_runs_no_step_witness :
  fst (handler_setup (initial_frame (Sim.boot 0 1 ["playwright.launch"])))
  = Thrown (mkError "playwright.launch failed")
  /\ stepResults (snd (handler JNull (Sim.boot 0 1 ["playwright.launch"]))) = [].
Proof.
  assert (H : fst (handler_setup (initial_frame (Sim.boot 0 1 ["playwright.launch"])))
              = Thrown (mkError "playwright.launch failed"))
    by (vm_compute; reflexivity).
  split; [exact H |].
  apply (handler_setup_failure_runs_no_step (P := Sim.platform) JNull _ _ H).
Defined.

(** The page cannot take screenshots: every step succeeds without
    evidence and the final screenshot ends the run. *)
Lemma handler_failure_without_failed_step_witness :
  fst (handler_try (initial_frame (Sim.boot 0 1 ["page.screenshot"])))
  = Thrown (mkError "page.screenshot failed")
  /\ Forall (fun r => status r = success)
            (stepResults (snd (handler JNull (Sim.boot 0 1 ["page.screenshot"]))))
  /\ map name (stepResults (snd (handler JNull (Sim.boot 0 1 ["page.screenshot"]))))
     = handler_step_names.
Proof.
  assert (H1 : fst (handler_try (initial_frame (Sim.boot 0 1 ["page.screenshot"])))
               = Thrown (mkError "page.screenshot failed"))
    by (vm_compute; reflexivity).
  assert (H2 : Forall (fun r => status r = success)
                      (stepResults (snd (handler JNull (Sim.boot 0 1 ["page.screenshot"])))))
    by (vm_compute; repeat constructor).
  split; [exact H1 |]. split; [exact H2 |].
  destruct (handler_failure_without_failed_step (P := Sim.platform) JNull _ _ H1 H2)
    as [Hnone | Hall];
    [| exact Hall].
  vm_compute in Hnone. discriminate Hnone.
Defined.

(** Waiting for the booking component fails. *)
Lemma handler_reports_failed_step_witness :
  Sim.failed_wait ∈ stepResults (snd (handler JNull (Sim.boot 1000 5 ["page.waitForSelector"])))
  /\ status Sim.failed_wait = error
  /\ last (stepResults (snd (handler JNull (Sim.boot 1000 5 ["page.waitForSelector"]))))
     = Some Sim.failed_wait.
Proof.
  assert (H1 : Sim.failed_wait
               ∈ stepResults (snd (handler JNull
                                     (Sim.boot 1000 5 ["page.waitForSelector"]))))
    by (apply list_elem_of_lookup; exists 1%nat; vm_compute; reflexivity).
  assert (H2 : status Sim.failed_wait = error) by reflexivity.
  split; [exact H1 |]. split; [exact H2 |].
  apply (handler_reports_failed_step (P := Sim.platform) JNull _ _ H1 H2).
Defined.

(** One array against itself. *)
Lemma steps_serialisation_injective_witness :
  Json.stringify (JArray (map StepResult_toJSON [Sim.stale; Sim.failed_wait]))
  = Json.stringify (JArray (map StepResult_toJSON [Sim.stale; Sim.failed_wait]))
  /\ [Sim.stale; Sim.failed_wait] = [Sim.stale; Sim.failed_wait].
Proof.
  assert (H : Json.stringify (JArray (map StepResult_toJSON [Sim.stale; Sim.failed_wait]))
              = Json.stringify (JArray (map StepResult_toJSON [Sim.stale; Sim.failed_wait])))
    by reflexivity.
  split; [exact H |].
  exact (steps_serialisation_injective _ _ H).
Defined.

End MoreRuns.
